(** * proj2_nps: a shallow embedding of the national-sites browser

    The program scrapes nps.gov for the national sites of a U.S. state,
    caches every page and every places-API answer in one JSON file, and
    drives an interactive prompt.  This development embeds
    [src/proj2_nps.py] function by function and settles the properties the
    specification states about it.

    Conventions of the embedding:
    - a Python [str] is a Rocq [string]; a character is a code point below
      256 (Latin-1), which is where [lower], [strip] and [isnumeric] are
      modelled exactly;
    - a value held by the cache is a [json] value; a Python [dict] is an
      association list in insertion order with pairwise distinct keys;
      the number fragment is the integers (floating point is left out);
    - effects (the cache file, the network, stdout and stdin, the clock) are
      threaded through a [World]; every effect is also logged in a trace;
    - a Python exception is a [Raise] result. *)

From Stdlib Require Import String Ascii List ZArith NArith Bool Lia.
From Stdlib Require Import Decimal DecimalString DecimalFacts DecimalPos DecimalN DecimalZ.
Import ListNotations.

Local Open Scope string_scope.
Local Open Scope list_scope.
Local Open Scope Z_scope.

(** ** Exceptions and results

    [OutOfFuel] is not a Python exception: a loop of the embedding gives
    it when the bound on its rounds is used up. *)

Inductive exn : Type :=
| FileNotFoundError
| JSONDecodeError
| KeyError
| TypeError
| AttributeError
| IndexError
| ValueError
| ConnectionError
| MissingSchema
| EOFError
| OutOfFuel.

Inductive result (A : Type) : Type :=
| Ok (a : A)
| Raise (e : exn).

Arguments Ok {A} a.
Arguments Raise {A} e.

Definition rbind {A B} (r : result A) (k : A -> result B) : result B :=
  match r with
  | Ok a => k a
  | Raise e => Raise e
  end.

(** [try: body / except: handler] for a body without effects. *)
Definition try_except {A} (body : result A) (handler : A) : A :=
  match body with
  | Ok a => a
  | Raise _ => handler
  end.

Definition is_ok {A} (r : result A) : bool :=
  match r with Ok _ => true | Raise _ => false end.

(** ** Python strings *)

Module Py.

Definition dquote : ascii := "034"%char.
Definition backslash : ascii := "092"%char.

Definition code (c : ascii) : N := N_of_ascii c.

Definition in_range (lo hi : N) (c : ascii) : bool :=
  ((lo <=? code c) && (code c <=? hi))%N.

(** [str.lower] on Latin-1: A-Z and the accented capitals move by 32. *)
Definition lower_char (c : ascii) : ascii :=
  if in_range 65 90 c || in_range 192 214 c || in_range 216 222 c
  then ascii_of_N (code c + 32)
  else c.

Fixpoint lower (s : string) : string :=
  match s with
  | EmptyString => EmptyString
  | String c r => String (lower_char c) (lower r)
  end.

(** [str.isspace] on one Latin-1 character. *)
Definition isspace (c : ascii) : bool :=
  in_range 9 13 c || in_range 28 32 c || (code c =? 133)%N || (code c =? 160)%N.

Fixpoint lstrip_by (p : ascii -> bool) (s : string) : string :=
  match s with
  | EmptyString => EmptyString
  | String c r => if p c then lstrip_by p r else s
  end.

(** Drops the trailing characters satisfying [p]. *)
Fixpoint rstrip_by (p : ascii -> bool) (s : string) : string :=
  match s with
  | EmptyString => EmptyString
  | String c r =>
      match rstrip_by p r with
      | EmptyString => if p c then EmptyString else String c EmptyString
      | r' => String c r'
      end
  end.

Definition strip_by (p : ascii -> bool) (s : string) : string :=
  rstrip_by p (lstrip_by p s).

(** [s.strip()] *)
Definition strip (s : string) : string := strip_by isspace s.

(** [s.strip('\n')] *)
Definition strip_newline (s : string) : string :=
  strip_by (fun c => (code c =? 10)%N) s.

Definition is_digit (c : ascii) : bool := in_range 48 57 c.

(** Characters with a numeric value: the digits, the superscripts
    two, three and one, and the three vulgar fractions. *)
Definition isnumeric_char (c : ascii) : bool :=
  is_digit c || in_range 178 179 c || (code c =? 185)%N || in_range 188 190 c.

Fixpoint all_chars (p : ascii -> bool) (s : string) : bool :=
  match s with
  | EmptyString => true
  | String c r => p c && all_chars p r
  end.

(** [s.isnumeric()]: non-empty and every character numeric. *)
Definition isnumeric (s : string) : bool :=
  match s with
  | EmptyString => false
  | _ => all_chars isnumeric_char s
  end.

Fixpoint digits_value (acc : Z) (s : string) : Z :=
  match s with
  | EmptyString => acc
  | String c r => digits_value (10 * acc + Z.of_N (code c - 48)) r
  end.

(** [int(s)] for a string that passed [isnumeric]: the superscripts and
    fractions are numeric but not decimal digits, and [int] rejects them. *)
Definition int (s : string) : result Z :=
  match s with
  | EmptyString => Raise ValueError
  | _ => if all_chars is_digit s then Ok (digits_value 0 s) else Raise ValueError
  end.

(** [str(n)] for an integer. *)
Definition str_of_int (n : Z) : string := NilZero.string_of_int (Z.to_int n).

(** [len(l)] *)
Definition len {A} (l : list A) : Z := Z.of_nat (length l).

(** [l[i]] with Python's negative indices. *)
Definition index {A} (l : list A) (i : Z) : result A :=
  let j := if i <? 0 then len l + i else i in
  if (0 <=? j) && (j <? len l)
  then match nth_error l (Z.to_nat j) with
       | Some a => Ok a
       | None => Raise IndexError
       end
  else Raise IndexError.

(** [sep.join(l)] *)
Fixpoint join (sep : string) (l : list string) : string :=
  match l with
  | [] => EmptyString
  | [x] => x
  | x :: r => x ++ sep ++ join sep r
  end.

(** [s.endswith(suffix)] *)
Definition endswith (s suffix : string) : bool :=
  let n := String.length s in
  let m := String.length suffix in
  (m <=? n)%nat && String.eqb (substring (n - m) m s) suffix.

(** [needle in hay] for two strings. *)
Fixpoint contains (needle hay : string) : bool :=
  prefix needle hay
  || match hay with
     | EmptyString => false
     | String _ r => contains needle r
     end.

End Py.

(** ** JSON values and Python dictionaries *)

Unset Elimination Schemes.
Inductive json : Type :=
| JNull
| JBool (b : bool)
| JInt (n : Z)
| JStr (s : string)
| JList (l : list json)
| JDict (d : list (string * json)).
Set Elimination Schemes.


Module Dict.

Section Values.

Context {V : Type}.

(** [k in d] *)
Fixpoint mem (k : string) (d : list (string * V)) : bool :=
  match d with
  | [] => false
  | (k', _) :: r => (k' =? k)%string || mem k r
  end.

(** [d[k]], [None] standing for [KeyError] *)
Fixpoint get (k : string) (d : list (string * V)) : option V :=
  match d with
  | [] => None
  | (k', v) :: r => if (k' =? k)%string then Some v else get k r
  end.

(** [d[k] = v]: an existing key keeps its place, a new one goes last. *)
Fixpoint set (k : string) (v : V) (d : list (string * V))
  : list (string * V) :=
  match d with
  | [] => [(k, v)]
  | (k', v') :: r =>
      if (k' =? k)%string then (k, v) :: r else (k', v') :: set k v r
  end.

(** [dict(pairs)] *)
Definition of_pairs (pairs : list (string * V)) : list (string * V) :=
  fold_left (fun d kv => set (fst kv) (snd kv) d) pairs [].

Definition keys (d : list (string * V)) : list string := map fst d.

Definition values (d : list (string * V)) : list V := map snd d.

End Values.


End Dict.


(** ** The [json] module: [dumps] and [loads] with their defaults *)

Module Json.

Import Py.
Local Open Scope string_scope.

Definition hex_digit (n : N) : ascii :=
  if (n <? 10)%N then ascii_of_N (48 + n) else ascii_of_N (87 + n).

(** One character of a string literal under [ensure_ascii=True]. *)
Definition escape_char (c : ascii) : string :=
  if (c =? dquote)%char then String backslash (String dquote EmptyString)
  else if (c =? backslash)%char then String backslash (String backslash EmptyString)
  else if (code c =? 10)%N then String backslash "n"
  else if (code c =? 13)%N then String backslash "r"
  else if (code c =? 9)%N then String backslash "t"
  else if (code c =? 8)%N then String backslash "b"
  else if (code c =? 12)%N then String backslash "f"
  else if in_range 32 126 c then String c EmptyString
  else String backslash
         (String "u" (String "0" (String "0"
            (String (hex_digit (code c / 16))
               (String (hex_digit (code c mod 16)) EmptyString))))).

Fixpoint escape (s : string) : string :=
  match s with
  | EmptyString => EmptyString
  | String c r => escape_char c ++ escape r
  end.

Definition quote (s : string) : string :=
  String dquote (escape s ++ String dquote EmptyString).

(** [json.dumps(v)]: separators [", "] and [": "], keys in insertion order. *)
Fixpoint dumps (v : json) : string :=
  match v with
  | JNull => "null"
  | JBool true => "true"
  | JBool false => "false"
  | JInt n => str_of_int n
  | JStr s => quote s
  | JList l => "[" ++ join ", " (map dumps l) ++ "]"
  | JDict d =>
      "{" ++ join ", " (map (fun kv => quote (fst kv) ++ ": " ++ dumps (snd kv)) d) ++ "}"
  end.

(** *** Reading: the scanner of [json.loads] *)

Definition is_ws (c : ascii) : bool :=
  (code c =? 32)%N || (code c =? 9)%N || (code c =? 10)%N || (code c =? 13)%N.

Definition skip_ws (s : string) : string := lstrip_by is_ws s.

Fixpoint strip_prefix (p s : string) : option string :=
  match p with
  | EmptyString => Some s
  | String a p' =>
      match s with
      | String b s' => if (a =? b)%char then strip_prefix p' s' else None
      | EmptyString => None
      end
  end.

Definition hex_value (c : ascii) : option N :=
  if is_digit c then Some (code c - 48)%N
  else if in_range 97 102 c then Some (code c - 87)%N
  else if in_range 65 70 c then Some (code c - 55)%N
  else None.

(** The four hexadecimal digits of a [\u] escape; a code point of 256 or
    more has no counterpart among the characters of the embedding. *)
Definition hex4 (a b c d : ascii) : option ascii :=
  match hex_value a, hex_value b, hex_value c, hex_value d with
  | Some x, Some y, Some z, Some w =>
      let n := (((x * 16 + y) * 16 + z) * 16 + w)%N in
      if (n <? 256)%N then Some (ascii_of_N n) else None
  | _, _, _, _ => None
  end.

Definition unescape (e : ascii) : option ascii :=
  if (e =? dquote)%char then Some dquote
  else if (e =? backslash)%char then Some backslash
  else if (e =? "/")%char then Some "/"%char
  else if (e =? "b")%char then Some (ascii_of_N 8)
  else if (e =? "f")%char then Some (ascii_of_N 12)
  else if (e =? "n")%char then Some (ascii_of_N 10)
  else if (e =? "r")%char then Some (ascii_of_N 13)
  else if (e =? "t")%char then Some (ascii_of_N 9)
  else None.

Definition push (c : ascii) (o : option (string * string))
  : option (string * string) :=
  match o with
  | Some (s, rest) => Some (String c s, rest)
  | None => None
  end.

(** The body of a string literal, the opening quote already consumed;
    strict mode refuses a raw control character. *)
Fixpoint parse_string (s : string) : option (string * string) :=
  match s with
  | EmptyString => None
  | String c r =>
      if (c =? dquote)%char then Some (EmptyString, r)
      else if (c =? backslash)%char then
        match r with
        | EmptyString => None
        | String e r1 =>
            if (e =? "u")%char then
              match r1 with
              | String h1 (String h2 (String h3 (String h4 r2))) =>
                  match hex4 h1 h2 h3 h4 with
                  | Some ch => push ch (parse_string r2)
                  | None => None
                  end
              | _ => None
              end
            else
              match unescape e with
              | Some ch => push ch (parse_string r1)
              | None => None
              end
        end
      else if (code c <? 32)%N then None
      else push c (parse_string r)
  end.

Definition digit_cons (c : ascii) (u : uint) : uint :=
  match (code c - 48)%N with
  | 0%N => D0 u
  | 1%N => D1 u
  | 2%N => D2 u
  | 3%N => D3 u
  | 4%N => D4 u
  | 5%N => D5 u
  | 6%N => D6 u
  | 7%N => D7 u
  | 8%N => D8 u
  | _ => D9 u
  end.

Fixpoint read_digits (s : string) : uint * string :=
  match s with
  | EmptyString => (Nil, s)
  | String c r =>
      if is_digit c
      then let (u, r') := read_digits r in (digit_cons c u, r')
      else (Nil, s)
  end.

(** A fraction or an exponent after the integer part makes the literal a
    float, which the embedding does not represent. *)
Definition float_follows (s : string) : bool :=
  match s with
  | String c _ => (c =? ".")%char || (c =? "e")%char || (c =? "E")%char
  | EmptyString => false
  end.

(** The integer part of a number: an optional minus sign, then either a
    single zero or a run of digits that starts with a non-zero digit. *)
Definition parse_int (s : string) : option (Z * string) :=
  let (neg, s1) :=
    match s with
    | String c r => if (c =? "-")%char then (true, r) else (false, s)
    | EmptyString => (false, s)
    end in
  match s1 with
  | EmptyString => None
  | String c r =>
      if is_digit c then
        let (u, r') := if (c =? "0")%char then (D0 Nil, r) else read_digits s1 in
        if float_follows r' then None
        else Some (Z.of_int (if neg then Neg u else Pos u), r')
      else None
  end.

Definition tagged {A B} (f : A -> B) (o : option (A * string))
  : option (B * string) :=
  match o with
  | Some (a, rest) => Some (f a, rest)
  | None => None
  end.

(** [scan_once], with the loops of [JSONArray] and [JSONObject]; [n] bounds
    the number of nested calls, and the length of the text is enough. *)
Fixpoint parse_value (n : nat) (s : string) {struct n} : option (json * string) :=
  match n with
  | O => None
  | S n' =>
      match s with
      | EmptyString => None
      | String c r =>
          if (c =? "[")%char then
            match skip_ws r with
            | EmptyString => None
            | String c' r' =>
                if (c' =? "]")%char then Some (JList [], r')
                else tagged JList (parse_elems n' (skip_ws r))
            end
          else if (c =? "{")%char then
            match skip_ws r with
            | EmptyString => None
            | String c' r' =>
                if (c' =? "}")%char then Some (JDict [], r')
                else tagged (fun ps => JDict (Dict.of_pairs ps))
                       (parse_members n' (skip_ws r))
            end
          else if (c =? dquote)%char then tagged JStr (parse_string r)
          else if (c =? "n")%char then tagged (fun _ : unit => JNull)
                 (option_map (pair tt) (strip_prefix "ull" r))
          else if (c =? "t")%char then tagged (fun _ : unit => JBool true)
                 (option_map (pair tt) (strip_prefix "rue" r))
          else if (c =? "f")%char then tagged (fun _ : unit => JBool false)
                 (option_map (pair tt) (strip_prefix "alse" r))
          else tagged JInt (parse_int s)
      end
  end
with parse_elems (n : nat) (s : string) {struct n} : option (list json * string) :=
  match n with
  | O => None
  | S n' =>
      match parse_value n' s with
      | None => None
      | Some (v, r) =>
          match skip_ws r with
          | EmptyString => None
          | String c r' =>
              if (c =? ",")%char then
                tagged (cons v) (parse_elems n' (skip_ws r'))
              else if (c =? "]")%char then Some ([v], r')
              else None
          end
      end
  end
with parse_members (n : nat) (s : string) {struct n}
  : option (list (string * json) * string) :=
  match n with
  | O => None
  | S n' =>
      match s with
      | EmptyString => None
      | String c r =>
          if (c =? dquote)%char then
            match parse_string r with
            | None => None
            | Some (k, r1) =>
                match skip_ws r1 with
                | EmptyString => None
                | String c1 r2 =>
                    if (c1 =? ":")%char then
                      match parse_value n' (skip_ws r2) with
                      | None => None
                      | Some (v, r3) =>
                          match skip_ws r3 with
                          | EmptyString => None
                          | String c3 r4 =>
                              if (c3 =? ",")%char then
                                tagged (cons (k, v))
                                  (parse_members n' (skip_ws r4))
                              else if (c3 =? "}")%char then Some ([(k, v)], r4)
                              else None
                          end
                      end
                    else None
                end
            end
          else None
      end
  end.

(** [json.loads(s)]; [None] stands for [JSONDecodeError]. *)
Definition loads (s : string) : option json :=
  match parse_value (S (String.length s)) (skip_ws s) with
  | Some (v, rest) =>
      match skip_ws rest with
      | EmptyString => Some v
      | _ => None
      end
  | None => None
  end.

End Json.

Definition sample_cache : json :=
  JDict [("https://www.nps.gov/index.htm",
          JStr ("<ul>a " ++ String Py.dquote
                  ("b" ++ String Py.dquote " \ c</ul>"))%string);
         ("Isle Royale",
          JDict [("searchResults",
                  JList [JDict [("name", JStr "Cafe"); ("n", JInt (-12))];
                         JNull; JBool true; JList []; JDict []])])].


(** ** The world: files, network, console, clock *)

Inductive event : Type :=
| EOpenRead (name : string)
| EWrite (name : string) (contents : string)
| EPrint (text : string)
| EInput (prompt : string)
| ESleep (seconds : Z)
| EGet (url : string) (params : list (string * string)).

(** [files] maps a file name to its contents; [network] answers a GET
    with the body of the response or with the exception [requests] raises;
    [CACHE_DICT] is the module-level global of that name; [stdin] holds the
    lines the user will type; [trace] logs every effect, oldest first. *)
Record World : Type := mkWorld {
  files : string -> option string;
  network : string -> list (string * string) -> result string;
  CACHE_DICT : json;
  stdin : list string;
  trace : list event
}.

Definition log_event (e : event) (w : World) : World :=
  mkWorld (files w) (network w) (CACHE_DICT w) (stdin w) (trace w ++ [e]).

Definition write_file (name contents : string) (w : World) : World :=
  mkWorld (fun n => if (n =? name)%string then Some contents else files w n)
    (network w) (CACHE_DICT w) (stdin w) (trace w ++ [EWrite name contents]).

Definition set_global (g : json) (w : World) : World :=
  mkWorld (files w) (network w) g (stdin w) (trace w).

Definition pop_stdin (w : World) : World :=
  mkWorld (files w) (network w) (CACHE_DICT w) (tl (stdin w)) (trace w).

(** At start-up the global is the empty dictionary and nothing happened. *)
Definition initial_world
    (fs : string -> option string)
    (net : string -> list (string * string) -> result string)
    (lines : list string) : World :=
  mkWorld fs net (JDict []) lines [].

(** *** Computations: state passing with exceptions *)

Definition M (A : Type) : Type := World -> result A * World.

Definition ret {A} (a : A) : M A := fun w => (Ok a, w).

Definition raise {A} (e : exn) : M A := fun w => (Raise e, w).

Definition bind {A B} (m : M A) (k : A -> M B) : M B :=
  fun w =>
    match m w with
    | (Ok a, w') => k a w'
    | (Raise e, w') => (Raise e, w')
    end.

Definition lift {A} (r : result A) : M A := fun w => (r, w).

Declare Scope io_scope.
Delimit Scope io_scope with io.

Notation "x <- c1 ;; c2" := (bind c1 (fun x => c2))
  (at level 61, c1 at next level, right associativity) : io_scope.
Notation "c1 ;; c2" := (bind c1 (fun _ => c2))
  (at level 61, right associativity) : io_scope.

Local Open Scope io_scope.

(** [print(text)] *)
Definition print (text : string) : M unit :=
  fun w => (Ok tt, log_event (EPrint text) w).

(** [time.sleep(seconds)] *)
Definition sleep (seconds : Z) : M unit :=
  fun w => (Ok tt, log_event (ESleep seconds) w).

(** [input(prompt)]: the next line of [stdin], [EOFError] at its end. *)
Definition input (prompt : string) : M string :=
  fun w =>
    match stdin w with
    | [] => (Raise EOFError, log_event (EInput prompt) w)
    | line :: _ => (Ok line, pop_stdin (log_event (EInput prompt) w))
    end.

(** [requests.get(url, params)], giving the body of the response. *)
Definition requests_get (url : string) (params : list (string * string))
  : M string :=
  fun w => (network w url params, log_event (EGet url params) w).

(** [for x in l: body x] *)
Fixpoint for_each {A} (l : list A) (body : A -> M unit) : M unit :=
  match l with
  | [] => ret tt
  | x :: r => body x ;; for_each r body
  end.

(** A loop that appends one result per element. *)
Fixpoint collect {A B} (l : list A) (body : A -> M B) : M (list B) :=
  match l with
  | [] => ret []
  | x :: r => y <- body x ;; ys <- collect r body ;; ret (y :: ys)
  end.

(** The same loop for a body without effects. *)
Fixpoint rcollect {A B} (l : list A) (body : A -> result B) : result (list B) :=
  match l with
  | [] => Ok []
  | x :: r =>
      rbind (body x) (fun y => rbind (rcollect r body) (fun ys => Ok (y :: ys)))
  end.

(** ** Parsed documents, as BeautifulSoup presents them *)

Unset Elimination Schemes.
Inductive node : Type :=
| Text (s : string)
| Tag (name : string) (attrs : list (string * string)) (children : list node).
Set Elimination Schemes.

(** The keyword arguments of [find]: none, [class_=...], or [key=value]. *)
Inductive attr_filter : Type :=
| AnyAttrs
| Class (c : string)
| Attr (key value : string).

Module Soup.

Definition children (n : node) : list node :=
  match n with
  | Text _ => []
  | Tag _ _ cs => cs
  end.

(** Every node below [n], in document order. *)
Fixpoint descendants (n : node) : list node :=
  match n with
  | Text _ => []
  | Tag _ _ cs => flat_map (fun c => c :: descendants c) cs
  end.

(** The words of an attribute value, and the value split at whitespace. *)
Fixpoint words (s : string) : string * list string :=
  match s with
  | EmptyString => (EmptyString, [])
  | String c r =>
      let (w, ws) := words r in
      if Py.isspace c
      then (EmptyString, match w with EmptyString => ws | _ => w :: ws end)
      else (String c w, ws)
  end.

Definition split_ws (s : string) : list string :=
  let (w, ws) := words s in
  match w with
  | EmptyString => ws
  | _ => w :: ws
  end.

(** [class_=c] matches one of the classes, or all of them joined by a
    single space. *)
Definition class_matches (c value : string) : bool :=
  existsb (String.eqb c) (split_ws value)
  || String.eqb c (Py.join " " (split_ws value)).

Definition attrs_match (f : attr_filter) (attrs : list (string * string)) : bool :=
  match f with
  | AnyAttrs => true
  | Class c =>
      match Dict.get "class" attrs with
      | Some value => class_matches c value
      | None => false
      end
  | Attr key value =>
      match Dict.get key attrs with
      | Some v => String.eqb v value
      | None => false
      end
  end.

Definition matches (name : string) (f : attr_filter) (n : node) : bool :=
  match n with
  | Text _ => false
  | Tag name' attrs _ => String.eqb name' name && attrs_match f attrs
  end.

(** [n.find(name, ...)]: the first matching tag below [n], or [None]. *)
Definition find (name : string) (f : attr_filter) (n : node) : option node :=
  List.find (matches name f) (descendants n).

(** [n.find_all(name)] *)
Definition find_all (name : string) (f : attr_filter) (n : node) : list node :=
  filter (matches name f) (descendants n).

(** [n.find_all(name, recursive=False)] *)
Definition find_all_children (name : string) (f : attr_filter) (n : node)
  : list node :=
  filter (matches name f) (children n).

(** [n.get_text()]: the text below [n], concatenated. *)
Fixpoint get_text (n : node) : string :=
  match n with
  | Text s => s
  | Tag _ _ cs => String.concat EmptyString (map get_text cs)
  end.

(** [n[key]] *)
Definition attr (key : string) (n : node) : result string :=
  match n with
  | Text _ => Raise TypeError
  | Tag _ attrs _ =>
      match Dict.get key attrs with
      | Some v => Ok v
      | None => Raise KeyError
      end
  end.

(** A method called on what [find] returned: [None] has no methods. *)
Definition on_found {A} (o : option node) (method : node -> result A) : result A :=
  match o with
  | Some n => method n
  | None => Raise AttributeError
  end.

(** Subscripting what [find] returned: [None] is not subscriptable. *)
Definition subscript (o : option node) (key : string) : result string :=
  match o with
  | Some n => attr key n
  | None => Raise TypeError
  end.

End Soup.

(** ** The program *)

Local Open Scope string_scope.

Definition newline : string := String (ascii_of_N 10) EmptyString.

(** What the program reads and writes besides its own text: the HTML
    parser behind [BeautifulSoup(markup, 'html.parser')], applied to
    whatever the cache returned, and the key of [secrets.API_KEY]. *)
Record Env : Type := mkEnv {
  BeautifulSoup : json -> result node;
  API_KEY : string
}.

(** *** class NationalSite *)

Record NationalSite : Type := mkNationalSite {
  category : string;
  name : string;
  address : string;
  zipcode : string;
  phone : string;
  url : option string
}.

(** [NationalSite.__init__] *)
Definition NationalSite_init (category name address zipcode phone : string)
    (url : option string) : NationalSite :=
  mkNationalSite category name address zipcode (Py.strip_newline phone) url.

(** [NationalSite.info] *)
Definition site_info (s : NationalSite) : string :=
  name s ++ " (" ++ category s ++ "): " ++ address s ++ " " ++ zipcode s.

Definition URL : string := "https://www.nps.gov/index.htm".
Definition CACHE_FILE_NAME : string := "proj2.json".

(** *** The cache *)

(** [load_cache]: any failure to open, read or decode gives [{}]. *)
Definition load_cache : M json :=
  fun w =>
    let w' := log_event (EOpenRead CACHE_FILE_NAME) w in
    match files w CACHE_FILE_NAME with
    | None => (Ok (JDict []), w')
    | Some contents =>
        match Json.loads contents with
        | Some cache => (Ok cache, w')
        | None => (Ok (JDict []), w')
        end
    end.

(** [save_cache] *)
Definition save_cache (cache : json) : M unit :=
  fun w => (Ok tt, write_file CACHE_FILE_NAME (Json.dumps cache) w).

(** [d[k]] on a dictionary *)
Definition getitem (k : string) (d : list (string * json)) : M json :=
  match Dict.get k d with
  | Some v => ret v
  | None => raise KeyError
  end.

(** [make_url_request_using_cache]; [cache.keys()] needs a dictionary. *)
Definition make_url_request_using_cache (url : string) (cache : json) : M json :=
  match cache with
  | JDict d =>
      if Dict.mem url d then
        (print "Using cache" ;;
         getitem url d)%io
      else
        (print "Fetching" ;;
         sleep 1 ;;
         response <- requests_get url [] ;;
         let d' := Dict.set url (JStr response) d in
         save_cache (JDict d') ;;
         getitem url d')%io
  | _ => raise AttributeError
  end.

Definition base_url : string := "https://www.nps.gov".

Section Program.

Variable env : Env.

(** *** build_state_url_dict *)

Definition state_entry (state : node) : result (string * string) :=
  let state_link_tag := Soup.find "a" AnyAttrs state in
  rbind (Soup.subscript state_link_tag "href") (fun state_path =>
  let state_url := base_url ++ state_path in
  let state_name := Py.lower (Soup.get_text state) in
  Ok (state_name, state_url)).

Definition build_state_url_dict : M (list (string * string)) :=
  (let state_url := base_url ++ "/index.htm" in
   CACHE_DICT <- load_cache ;;
   url_text <- make_url_request_using_cache state_url CACHE_DICT ;;
   soup <- lift (BeautifulSoup env url_text) ;;
   let state_parent :=
     Soup.find "ul" (Class "dropdown-menu SearchBar-keywordSearch") soup in
   state_ls <- lift (Soup.on_found state_parent
                 (fun p => Ok (Soup.find_all_children "li" AnyAttrs p))) ;;
   entries <- lift (rcollect state_ls state_entry) ;;
   ret (Dict.of_pairs entries))%io.

(** *** get_site_instance *)

Definition park_category_lookup (park_parent : option node) : result string :=
  rbind (Soup.on_found park_parent (fun p =>
           Ok (Soup.find "div" (Class "Hero-designationContainer") p)))
        (fun container =>
  rbind (Soup.on_found container (fun c =>
           Ok (Soup.find "span" (Class "Hero-designation") c)))
        (fun designation =>
  Soup.on_found designation (fun d => Ok (Py.strip (Soup.get_text d))))).

(** [footer.find('p', class_='adr').find('span', ...).get_text()] *)
Definition adr_span_text (park_footer_parent : option node) (f : attr_filter)
  : result string :=
  rbind (Soup.on_found park_footer_parent (fun p =>
           Ok (Soup.find "p" (Class "adr") p)))
        (fun adr =>
  rbind (Soup.on_found adr (fun a => Ok (Soup.find "span" f a)))
        (fun span =>
  Soup.on_found span (fun s => Ok (Soup.get_text s)))).

Definition park_zip_code_lookup (park_footer_parent : option node) : result string :=
  rbind (adr_span_text park_footer_parent (Class "postal-code"))
        (fun t => Ok (Py.strip t)).

Definition park_address_lookup (park_footer_parent : option node) : result string :=
  rbind (adr_span_text park_footer_parent (Attr "itemprop" "addressLocality"))
        (fun locality =>
  rbind (adr_span_text park_footer_parent (Attr "itemprop" "addressRegion"))
        (fun region => Ok (locality ++ ", " ++ region))).

Definition park_phone_lookup (park_footer_parent : option node) : result string :=
  rbind (Soup.on_found park_footer_parent (fun p =>
           Ok (Soup.find "span" (Class "tel") p)))
        (fun tel => Soup.on_found tel (fun t => Ok (Soup.get_text t))).

(** The part of [get_site_instance] that follows the parse. *)
Definition extract_site (park_soup : node) : result NationalSite :=
  let park_parent :=
    Soup.find "div" (Class "Hero-titleContainer clearfix") park_soup in
  rbind (Soup.on_found park_parent (fun p =>
           Soup.on_found (Soup.find "a" (Class "Hero-title") p)
             (fun t => Ok (Soup.get_text t))))
        (fun park_name =>
  let park_category :=
    try_except
      (rbind (park_category_lookup park_parent) (fun park_category =>
         Ok (if (park_category =? EmptyString)%string
             then "Not found category" else park_category)))
      "Not found category" in
  let park_footer_parent := Soup.find "div" (Class "ParkFooter") park_soup in
  let park_zip_code :=
    try_except (park_zip_code_lookup park_footer_parent) "Not found zipcode" in
  let park_address :=
    try_except (park_address_lookup park_footer_parent) "Not found address" in
  let park_phone :=
    try_except (park_phone_lookup park_footer_parent) "Not found phone number" in
  Ok (NationalSite_init park_category park_name park_address park_zip_code
        park_phone None)).

Definition get_site_instance (site_url : string) : M NationalSite :=
  (CACHE_DICT <- load_cache ;;
   url_text <- make_url_request_using_cache site_url CACHE_DICT ;;
   park_soup <- lift (BeautifulSoup env url_text) ;;
   lift (extract_site park_soup))%io.

(** *** get_sites_for_state *)

Definition park_link (park_name : node) : result (string * string) :=
  let park_tag := Soup.find "a" AnyAttrs park_name in
  rbind (Soup.on_found park_tag (fun t => Ok (Soup.get_text t))) (fun park_name =>
  rbind (Soup.subscript park_tag "href") (fun park_path =>
  Ok (park_name, base_url ++ park_path ++ "index.htm"))).

Definition site_of_heading (park_name : node) : M NationalSite :=
  (link <- lift (park_link park_name) ;;
   let park_name := fst link in
   let park_url := snd link in
   p_instance <- get_site_instance park_url ;;
   let park_address := address p_instance in
   let park_category := category p_instance in
   let park_zip_code := zipcode p_instance in
   let park_phone := phone p_instance in
   ret (NationalSite_init park_category park_name park_address park_zip_code
          park_phone (Some park_url)))%io.

Definition get_sites_for_state (state_url : string) : M (list NationalSite) :=
  (CACHE_DICT <- load_cache ;;
   url_text <- make_url_request_using_cache state_url CACHE_DICT ;;
   site_soup <- lift (BeautifulSoup env url_text) ;;
   let park_parent := Soup.find "div" (Attr "id" "parkListResults") site_soup in
   park_name_ls <- lift (Soup.on_found park_parent
                     (fun p => Ok (Soup.find_all "h3" AnyAttrs p))) ;;
   collect park_name_ls site_of_heading)%io.

(** *** The places API *)

Definition MAP_KEY : string := API_KEY env.

(** [key in cache_file] for whatever [load_cache] returned. *)
Definition contains_key (key : string) (cache_file : json) : result bool :=
  match cache_file with
  | JDict d => Ok (Dict.mem key d)
  | JList l =>
      Ok (existsb (fun x => match x with
                            | JStr s => String.eqb s key
                            | _ => false
                            end) l)
  | JStr s => Ok (Py.contains key s)
  | _ => Raise TypeError
  end.

(** [obj[key]] for a string key. *)
Definition subscript (obj : json) (key : string) : result json :=
  match obj with
  | JDict d =>
      match Dict.get key d with
      | Some v => Ok v
      | None => Raise KeyError
      end
  | _ => Raise TypeError
  end.

(** [obj[key] = value] for a string key. *)
Definition assign (obj : json) (key : string) (value : json) : result json :=
  match obj with
  | JDict d => Ok (JDict (Dict.set key value d))
  | _ => Raise TypeError
  end.

(** [response.json()] *)
Definition response_json (body : string) : result json :=
  match Json.loads body with
  | Some v => Ok v
  | None => Raise JSONDecodeError
  end.

Definition api_params (site_object : NationalSite) : list (string * string) :=
  [("key", MAP_KEY); ("origin", zipcode site_object); ("radius", "10");
   ("maxMatches", "10"); ("ambiguities", "ignore"); ("outFormat", "json")].

Definition make_request_with_cache_api (base_url : string)
    (site_object : NationalSite) : M json :=
  (cache_file <- load_cache ;;
   let params := api_params site_object in
   hit <- lift (contains_key (name site_object) cache_file) ;;
   if hit : bool then
     print "Using cache" ;;
     lift (subscript cache_file (name site_object))
   else
     print "Fetching" ;;
     body <- requests_get base_url params ;;
     response <- lift (response_json body) ;;
     cache_file' <- lift (assign cache_file (name site_object) response) ;;
     save_cache cache_file' ;;
     lift (subscript cache_file' (name site_object)))%io.

Definition get_nearby_places (site_object : NationalSite) : M json :=
  let base_url := "http://www.mapquestapi.com/search/v2/radius" in
  make_request_with_cache_api base_url site_object.

End Program.

(** *** class NearbyPlace and make_nearby_instance_list *)

Record NearbyPlace : Type := mkNearbyPlace {
  place_name : json;
  place_category : string;
  street_address : string;
  city_name : string
}.

(** [NearbyPlace.info]: concatenation needs the name to be a string. *)
Definition place_info (p : NearbyPlace) : result string :=
  match place_name p with
  | JStr n =>
      Ok (n ++ " (" ++ place_category p ++ "): " ++ street_address p ++ ", "
            ++ city_name p)
  | _ => Raise TypeError
  end.

(** [for member in v]: a list gives its items, a dictionary its keys, a
    string its characters; nothing else is iterable. *)
Definition iterate (v : json) : result (list json) :=
  match v with
  | JList l => Ok l
  | JDict d => Ok (map JStr (Dict.keys d))
  | JStr s => Ok (map (fun c => JStr (String c EmptyString)) (list_ascii_of_string s))
  | _ => Raise TypeError
  end.

(** [v.strip()]: only a string has the method. *)
Definition strip_method (v : json) : result string :=
  match v with
  | JStr s => Ok (Py.strip s)
  | _ => Raise AttributeError
  end.

(** [member['fields'][key].strip()] *)
Definition field_text (member : json) (key : string) : result string :=
  rbind (subscript member "fields") (fun fields =>
  rbind (subscript fields key) strip_method).

Definition or_placeholder (placeholder : string) (text : string) : string :=
  if (text =? EmptyString)%string then placeholder else text.

(** The body of the loop of [make_nearby_instance_list]. *)
Definition nearby_of_member (member : json) : result NearbyPlace :=
  rbind (subscript member "name") (fun nearby_name =>
  rbind
    match rbind (field_text member "group_sic_code_name")
                (fun c => Ok (or_placeholder "no category" c)) with
    | Ok nearby_category => Ok nearby_category
    | Raise _ => field_text member "group_sic_code_name_ext"
    end
    (fun nearby_category =>
  let nearby_street_address :=
    try_except
      (rbind (field_text member "address")
             (fun a => Ok (or_placeholder "no street address" a)))
      "no street address" in
  let nearby_city_name :=
    try_except
      (rbind (field_text member "city")
             (fun c => Ok (or_placeholder "no city" c)))
      "no city" in
  Ok (mkNearbyPlace nearby_name nearby_category nearby_street_address
        nearby_city_name))).

Definition make_nearby_instance_list (nearby_dict : json)
  : result (list NearbyPlace) :=
  rbind (subscript nearby_dict "searchResults") (fun results =>
  rbind (iterate results) (fun members =>
  rcollect members nearby_of_member)).

(** *** get_key and the table of states *)

Definition get_key (dictionary : list (string * string)) (value : string)
  : result string :=
  Py.index
    (map fst (filter (fun kv => String.eqb (snd kv) value) dictionary)) 0.

Definition states : list (string * string) :=
  [("alaska", "ak"); ("alabama", "al"); ("arkansas", "ar"); ("american samoa", "as");
   ("arizona", "az"); ("california", "ca"); ("colorado", "co"); ("connecticut", "ct");
   ("district of columbia", "dc"); ("delaware", "de"); ("florida", "fl"); ("georgia", "ga");
   ("guam", "gu"); ("hawaii", "hi"); ("iowa", "ia"); ("idaho", "id"); ("illinois", "il");
   ("indiana", "in"); ("kansas", "ks"); ("kentucky", "ky"); ("louisiana", "la");
   ("massachusetts", "ma"); ("maryland", "md"); ("maine", "me"); ("michigan", "mi");
   ("minnesota", "mn"); ("missouri", "mo"); ("northern mariana islands", "mp");
   ("mississippi", "ms"); ("montana", "mt"); ("national", "na"); ("north carolina", "nc");
   ("north dakota", "nd"); ("nebraska", "ne"); ("new hampshire", "nh"); ("new jersey", "nj");
   ("new mexico", "nm"); ("nevada", "nv"); ("new york", "ny"); ("ohio", "oh");
   ("oklahoma", "ok");
   ("oregon", "or"); ("pennsylvania", "pa"); ("puerto rico", "pr"); ("rhode island", "ri");
   ("south carolina", "sc"); ("south dakota", "sd"); ("tennessee", "tn"); ("texas", "tx");
   ("utah", "ut"); ("virginia", "va"); ("virgin islands", "vi"); ("vermont", "vt");
   ("washington", "wa"); ("wisconsin", "wi"); ("west virginia", "wv"); ("wyoming", "wy")].

(** *** The interactive loop *)

Definition quoted (s : string) : string :=
  String Py.dquote (s ++ String Py.dquote EmptyString).

Definition dashes : string :=
  String.concat EmptyString (repeat "-" 50).

Definition state_prompt : string :=
  "Enter a state name (e.g. Michigan, michigan) or " ++ quoted "exit" ++ ":".

Definition detail_prompt : string :=
  "Choose the number for detail search or " ++ quoted "exit" ++ " or "
  ++ quoted "back" ++ ":".

(** The branches on the entered state, lower-cased already. *)
Inductive resolution : Type :=
| StateUrl (state_url : string)
| ExitProgram
| ImproperName.

Definition resolve_state (state : string) : resolution :=
  if (String.length state =? 2)%nat
     && existsb (String.eqb state) (Dict.values states)
  then StateUrl (base_url ++ "/" ++ state ++ "/" ++ "/index.htm")
  else if (state =? "exit")%string then ExitProgram
  else
    match Dict.get state states with
    | Some abbr => StateUrl (base_url ++ "/" ++ abbr ++ "/" ++ "/index.htm")
    | None => ImproperName
    end.

Local Open Scope io_scope.

Definition print_header (state : string) : M unit :=
  (if negb (String.length state =? 2)%nat then
     print dashes ;;
     print ("List of national sites in " ++ Py.lower state) ;;
     print dashes
   else ret tt) ;;
  (if (String.length state =? 2)%nat then
     print dashes ;;
     k <- lift (get_key states state) ;;
     print ("List of national sites in " ++ Py.lower k) ;;
     print dashes
   else ret tt).

(** [print('[', i, '] ', site.info())] *)
Definition listing_line (i : Z) (site : NationalSite) : string :=
  "[ " ++ Py.str_of_int i ++ " ]  " ++ site_info site.

(** The [for] loop of the listing; gives the counter it ends with. *)
Fixpoint print_sites (i : Z) (sites_list : list NationalSite) : M Z :=
  match sites_list with
  | [] => ret i
  | site :: r => print (listing_line i site) ;; print_sites (i + 1) r
  end.

(** [i = 1; while i <= len(sites_list): for ...] *)
Fixpoint listing_from (fuel : nat) (i : Z) (sites_list : list NationalSite)
  : M unit :=
  if (i <=? Py.len sites_list)%Z then
    match fuel with
    | O => raise OutOfFuel
    | S fuel' =>
        i' <- print_sites i sites_list ;;
        listing_from fuel' i' sites_list
    end
  else ret tt.

Definition print_listing (sites_list : list NationalSite) : M unit :=
  listing_from 1 1 sites_list.

Definition invalid_input : M unit :=
  print ("[Error] Invalid input " ++ newline) ;;
  print dashes.

Inductive choice_outcome : Type :=
| Stay
| Back
| ExitAll.

Section Loop.

Variable env : Env.

(** What the program does for a number within the accepted range. *)
Definition show_nearby (sites_list : list NationalSite) (n : Z) : M unit :=
  chosen <- lift (Py.index sites_list (n - 1)) ;;
  park_instance <-
    match url chosen with
    | Some u => get_site_instance env u
    | None => raise MissingSchema
    end ;;
  let site_name := name park_instance in
  nearbyplace <- get_nearby_places env park_instance ;;
  nearby_instance_list <- lift (make_nearby_instance_list nearbyplace) ;;
  print dashes ;;
  print ("Places near " ++ Py.strip site_name) ;;
  print dashes ;;
  for_each nearby_instance_list
    (fun nearby_place =>
       line <- lift (place_info nearby_place) ;;
       print ("- " ++ line)).

(** One round of the inner [while True]. *)
Definition detail_choice (sites_list : list NationalSite) : M choice_outcome :=
  typed <- input detail_prompt ;;
  let option := Py.lower typed in
  if (option =? "back")%string then ret Back
  else if (option =? "exit")%string then ret ExitAll
  else if Py.isnumeric option then
    n <- lift (Py.int option) ;;
    if (n <=? Py.len sites_list)%Z && Py.isnumeric option then
      show_nearby sites_list n ;;
      ret Stay
    else
      invalid_input ;;
      ret Stay
  else
    invalid_input ;;
    ret Stay.

(** The inner loop; gives [true] when the user asked to leave the program. *)
Fixpoint detail_loop (fuel : nat) (sites_list : list NationalSite) : M bool :=
  match fuel with
  | O => raise OutOfFuel
  | S fuel' =>
      outcome <- detail_choice sites_list ;;
      match outcome with
      | Stay => detail_loop fuel' sites_list
      | Back => ret false
      | ExitAll => ret true
      end
  end.

(** One round of the outer [while True]; [true] ends the program. *)
Definition state_choice (fuel : nat) : M bool :=
  typed <- input state_prompt ;;
  let state := Py.lower typed in
  match resolve_state state with
  | ExitProgram => ret true
  | ImproperName =>
      print ("[Error] Enter proper state name " ++ newline) ;;
      ret false
  | StateUrl state_url =>
      sites_list <- get_sites_for_state env state_url ;;
      print_header state ;;
      print_listing sites_list ;;
      detail_loop fuel sites_list
  end.

Fixpoint main_loop (fuel : nat) : M unit :=
  match fuel with
  | O => raise OutOfFuel
  | S fuel' =>
      leave <- state_choice fuel' ;;
      if leave : bool then ret tt else main_loop fuel'
  end.

(** The program, bounded by the lines it can read. *)
Definition main : M unit :=
  fun w => main_loop (S (length (stdin w))) w.

End Loop.

(** ** Reading the trace *)

Definition log_events (evs : list event) (w : World) : World :=
  mkWorld (files w) (network w) (CACHE_DICT w) (stdin w) (trace w ++ evs).

(** The GET requests of a trace, in order. *)
Fixpoint requests_of (evs : list event) : list (string * list (string * string)) :=
  match evs with
  | [] => []
  | EGet u params :: r => (u, params) :: requests_of r
  | _ :: r => requests_of r
  end.

(** The lines printed. *)
Fixpoint printed (evs : list event) : list string :=
  match evs with
  | [] => []
  | EPrint text :: r => text :: printed r
  | _ :: r => printed r
  end.


(** Every request of the trace comes after a pause. *)
Fixpoint delayed (slept : bool) (evs : list event) : bool :=
  match evs with
  | [] => true
  | ESleep _ :: r => delayed true r
  | EGet _ _ :: r => slept && delayed false r
  | _ :: r => delayed slept r
  end.

(** ** Sample pages, answers and worlds *)

Module Samples.

Definition hero (title : string) (designation : list node) : node :=
  Tag "div" [("class", "Hero-titleContainer clearfix")]
    (Tag "a" [("class", "Hero-title"); ("href", "/isro/")] [Text title]
     :: designation).

Definition designation (text : string) : node :=
  Tag "div" [("class", "Hero-designationContainer")]
    [Tag "span" [("class", "Hero-designation")] [Text text]].

Definition footer (locality region postal tel : string) : node :=
  Tag "div" [("class", "ParkFooter")]
    [Tag "p" [("class", "adr")]
       [Tag "span" [("itemprop", "addressLocality")] [Text locality];
        Tag "span" [("itemprop", "addressRegion")] [Text region];
        Tag "span" [("itemprop", "postalCode"); ("class", "postal-code")]
          [Text postal]];
     Tag "span" [("itemprop", "telephone"); ("class", "tel")] [Text tel]].

Definition document (body : list node) : node := Tag "[document]" [] body.

(** A complete detail page. *)
Definition isle_royale_page : node :=
  document [hero "Isle Royale" [designation " National Park "];
            footer "Houghton" "MI" " 49931 " (newline ++ "(906) 482-0984" ++ newline)].

Definition keweenaw_page : node :=
  document [hero "Keweenaw" [designation "National Historical Park"];
            footer "Calumet" "MI" "49913" "(906) 337-3168"].

(** A detail page whose zip code and phone nodes hold only white space. *)
Definition blank_fields_page : node :=
  document [hero "Somewhere" [designation "Park"];
            footer "Town" "MI" "  " newline].

(** A detail page with a title and nothing else. *)
Definition bare_page : node := document [hero "Nowhere" []].

(** The index page and a state page. *)
Definition index_page : node :=
  document
    [Tag "ul" [("class", "dropdown-menu SearchBar-keywordSearch")]
       [Tag "li" [] [Tag "a" [("href", "/state/mi/index.htm")] [Text "Michigan"]];
        Tag "li" [] [Tag "a" [("href", "/state/oh/index.htm")] [Text "Ohio"]]]].

Definition michigan_page : node :=
  document
    [Tag "div" [("id", "parkListResults")]
       [Tag "h3" [] [Tag "a" [("href", "/isro/")] [Text "Isle Royale"]];
        Tag "h3" [] [Tag "a" [("href", "/kewe/")] [Text "Keweenaw"]]]].

(** A stand-in for the HTML parser: it knows the texts of these pages. *)
Definition pages : list (string * node) :=
  [("<index>", index_page); ("<michigan>", michigan_page);
   ("<isro>", isle_royale_page); ("<kewe>", keweenaw_page);
   ("<blank>", blank_fields_page); ("<bare>", bare_page)].

Definition parse (markup : json) : result node :=
  match markup with
  | JStr text =>
      match Dict.get text pages with
      | Some page => Ok page
      | None => Ok (document [Text text])
      end
  | _ => Raise TypeError
  end.

Definition env : Env := mkEnv parse "secret".

Definition api_url : string := "http://www.mapquestapi.com/search/v2/radius".

Definition cafe : json :=
  JDict [("name", JStr "Cafe");
         ("fields", JDict [("group_sic_code_name", JStr " Restaurants ");
                           ("address", JStr "1 Main St");
                           ("city", JStr "Houghton")])].

Definition places_answer : json := JDict [("searchResults", JList [cafe])].

(** The remote hosts: three pages of nps.gov and the places API. *)
Definition net (u : string) (params : list (string * string)) : result string :=
  if (u =? "https://www.nps.gov/index.htm")%string then Ok "<index>"
  else if (u =? "https://www.nps.gov/mi//index.htm")%string then Ok "<michigan>"
  else if (u =? "https://www.nps.gov/isro/index.htm")%string then Ok "<isro>"
  else if (u =? "https://www.nps.gov/kewe/index.htm")%string then Ok "<kewe>"
  else if (u =? api_url)%string then Ok (Json.dumps places_answer)
  else Raise ConnectionError.

Definition no_files : string -> option string := fun _ => None.

(** A first run: no cache file yet. *)
Definition fresh (lines : list string) : World := initial_world no_files net lines.

Definition isle_royale : NationalSite :=
  mkNationalSite "National Park" "Isle Royale" "Houghton, MI" "49931"
    "(906) 482-0984" (Some "https://www.nps.gov/isro/index.htm").

Definition keweenaw : NationalSite :=
  mkNationalSite "National Historical Park" "Keweenaw" "Calumet, MI" "49913"
    "(906) 337-3168" (Some "https://www.nps.gov/kewe/index.htm").



End Samples.

(** ** Vocabulary for the statements about the codec *)

Module JsonSpec.

Import Py Json.
Local Open Scope string_scope.







End JsonSpec.

(** ** Vocabulary of the properties *)

(** [typed] is a spelling of the table entry: its name or its
    abbreviation, in any letter case. *)
Definition spells (typed : string) (entry : string * string) : Prop :=
  Py.lower typed = fst entry \/ Py.lower typed = snd entry.

(** The URL the loop builds for an abbreviation. *)
Definition state_page_url (abbr : string) : string :=
  base_url ++ "/" ++ abbr ++ "/" ++ "/index.htm".

(** *** The four optional fields of a detail page *)

Definition title_container (park_soup : node) : option node :=
  Soup.find "div" (Class "Hero-titleContainer clearfix") park_soup.

Definition park_footer (park_soup : node) : option node :=
  Soup.find "div" (Class "ParkFooter") park_soup.

(** The name, whose lookup stands outside every [try]. *)
Definition title_text (park_soup : node) : result string :=
  Soup.on_found (title_container park_soup) (fun p =>
    Soup.on_found (Soup.find "a" (Class "Hero-title") p)
      (fun t => Ok (Soup.get_text t))).

(** What each [try] block computes before any placeholder comes in. *)
Definition category_text (park_soup : node) : result string :=
  park_category_lookup (title_container park_soup).

Definition zip_text (park_soup : node) : result string :=
  park_zip_code_lookup (park_footer park_soup).

Definition address_text (park_soup : node) : result string :=
  park_address_lookup (park_footer park_soup).

Definition phone_text (park_soup : node) : result string :=
  park_phone_lookup (park_footer park_soup).

(** The lookup failed, or its text is empty once trimmed. *)
Definition missing_or_blank (lookup : result string) : Prop :=
  match lookup with
  | Raise _ => True
  | Ok text => Py.strip text = EmptyString
  end.

(** The four fields, as the specification words them: a failed lookup and
    a blank text both give the placeholder. *)
Definition placeholders_for_missing_or_blank : Prop :=
  forall (park_soup : node) (site : NationalSite),
    extract_site park_soup = Ok site ->
    (missing_or_blank (category_text park_soup) ->
     category site = "Not found category")
    /\ (missing_or_blank (address_text park_soup) ->
        address site = "Not found address")
    /\ (missing_or_blank (zip_text park_soup) ->
        zipcode site = "Not found zipcode")
    /\ (missing_or_blank (phone_text park_soup) ->
        phone site = "Not found phone number").

(** *** Items of a places answer *)

Definition item_without_category : json :=
  JDict [("name", JStr "Cafe");
         ("fields", JDict [("address", JStr "1 Main St"); ("city", JStr "Houghton")])].

Definition item_with_alternate_only : json :=
  JDict [("name", JStr "Cafe");
         ("fields", JDict [("group_sic_code_name_ext", JStr " Diners ")])].

Definition item_with_blank_alternate : json :=
  JDict [("name", JStr "Cafe");
         ("fields", JDict [("group_sic_code_name", JInt 5);
                           ("group_sic_code_name_ext", JStr "  ")])].

Definition item_with_blank_category : json :=
  JDict [("name", JStr "Cafe");
         ("fields", JDict [("group_sic_code_name", JStr "  ");
                           ("group_sic_code_name_ext", JStr "Diners")])].

Definition item_without_fields : json := JDict [("name", JStr "Cafe")].

Definition answer_of (items : list json) : json :=
  JDict [("searchResults", JList items)].

(** *** The listing and the detail prompt *)

Fixpoint listing_lines (i : Z) (sites_list : list NationalSite) : list string :=
  match sites_list with
  | [] => []
  | site :: r => listing_line i site :: listing_lines (i + 1) r
  end.

(** The world after the user typed one line at a prompt. *)
Definition after_input (prompt : string) (w : World) : World :=
  pop_stdin (log_event (EInput prompt) w).

Definition invalid_input_events : list event :=
  [EPrint ("[Error] Invalid input " ++ newline); EPrint dashes].

(** *** The cache *)

(** What [load_cache] returns in a world. *)
Definition cache_of (w : World) : json :=
  match files w CACHE_FILE_NAME with
  | None => JDict []
  | Some contents =>
      match Json.loads contents with
      | Some cache => cache
      | None => JDict []
      end
  end.






(** *** The module-level global *)

(** [op] never reads the global [CACHE_DICT] and leaves it as it is: with
    another value in it, [op] gives the same result and the same world,
    that value apart. *)
Definition ignores_global {A} (op : M A) : Prop :=
  forall (g : json) (w : World),
    op (set_global g w) = (fst (op w), set_global g (snd (op w))).

(** [op] only adds to the trace. *)
Definition trace_grows {A} (op : M A) : Prop :=
  forall w : World, exists evs, trace (snd (op w)) = (trace w ++ evs)%list.

(** The first thing [op] does is open the cache file for reading. *)
Definition reloads_first {A} (op : M A) : Prop :=
  forall w : World,
  exists evs,
    trace (snd (op w)) = (trace w ++ EOpenRead CACHE_FILE_NAME :: evs)%list.

Definition tame {A} (op : M A) : Prop := ignores_global op /\ trace_grows op.

(** *** The directory of states and the loop *)



(** *** Invariants of the whole program *)

(** [op] leaves every file but the cache file as it found it. *)
Definition keeps_other_files {A} (op : M A) : Prop :=
  forall (w : World) (n : string),
    n <> CACHE_FILE_NAME -> files (snd (op w)) n = files w n.

(** [op] sends no request without a pause since the request before. *)
Definition polite {A} (op : M A) : Prop :=
  forall w : World,
  exists evs,
    trace (snd (op w)) = (trace w ++ evs)%list /\ delayed false evs = true.

(** The cache file holds the value [v] under the key [k]. *)
Definition cached (k : string) (v : json) (w : World) : Prop :=
  exists d, cache_of w = JDict d /\ Dict.get k d = Some v.

(** [op] never removes an entry of the cache file and never changes one. *)
Definition keeps_entries {A} (op : M A) : Prop :=
  forall (w : World) (k : string) (v : json),
    cached k v w -> cached k v (snd (op w)).


(** *** More sample pages *)

Module Samples2.

(** A state page whose list of results is there and empty. *)
Definition empty_state_page : node :=
  Samples.document [Tag "div" [("id", "parkListResults")] [Text "No parks"]].

Definition parse (markup : json) : result node :=
  match markup with
  | JStr text =>
      if (text =? "<empty>")%string then Ok empty_state_page
      else Samples.parse markup
  | _ => Raise TypeError
  end.

Definition env : Env := mkEnv parse "secret".

Definition cache_with (entries : list (string * json)) : string -> option string :=
  fun n =>
    if (n =? CACHE_FILE_NAME)%string then Some (Json.dumps (JDict entries))
    else None.

(** A world whose cache file holds the given entries. *)
Definition with_cache (entries : list (string * json)) (lines : list string)
  : World :=
  initial_world (cache_with entries) Samples.net lines.



End Samples2.

(** *** Vocabulary of the further properties *)


(** The headings of the results of a state page. *)
Definition park_headings (site_soup : node) : result (list node) :=
  Soup.on_found (Soup.find "div" (Attr "id" "parkListResults") site_soup)
    (fun p => Ok (Soup.find_all "h3" AnyAttrs p)).


Definition first_char (s : string) : option ascii :=
  match s with
  | EmptyString => None
  | String c _ => Some c
  end.

Fixpoint last_char (s : string) : option ascii :=
  match s with
  | EmptyString => None
  | String c EmptyString => Some c
  | String _ r => last_char r
  end.

(** No character satisfying [p] at either end of [s]. *)
Definition trimmed (p : ascii -> bool) (s : string) : Prop :=
  (forall c, first_char s = Some c -> p c = false)
  /\ (forall c, last_char s = Some c -> p c = false).

Definition is_newline (c : ascii) : bool := (Py.code c =? 10)%N.

(** The place comes from the item: it carries the item's name, and its
    street address and city are never empty. *)
Definition place_of_item (member : json) (p : NearbyPlace) : Prop :=
  subscript member "name" = Ok (place_name p)
  /\ street_address p <> EmptyString
  /\ city_name p <> EmptyString.

(** What the loop prints for the places near a site. *)
Definition nearby_report (park_instance : NationalSite) (lines : list string)
  : list event :=
  EPrint dashes
  :: EPrint ("Places near " ++ Py.strip (name park_instance))
  :: EPrint dashes
  :: map (fun line => EPrint ("- " ++ line)) lines.



(** * Properties

    Sanity checks of the helpers on concrete inputs come first. *)

Local Open Scope list_scope.

Example lower_Michigan : Py.lower "MiChIgAn" = "michigan".
Proof. reflexivity. Qed.

Example strip_spaces : Py.strip "  49931 " = "49931".
Proof. reflexivity. Qed.

Example int_of_12 : Py.int "012" = Ok 12.
Proof. reflexivity. Qed.

Example index_minus_one : Py.index [1; 2; 3] (-1) = Ok 3.
Proof. reflexivity. Qed.

Example dumps_sample :
  Json.dumps (JDict [("a", JList [JInt 1; JInt (-20); JNull]); ("b", JStr "x y")])
  = String "{" (String Py.dquote ("a" ++ String Py.dquote (": [1, -20, null], "
      ++ String Py.dquote ("b" ++ String Py.dquote (": "
      ++ String Py.dquote ("x y" ++ String Py.dquote "}"))))))%string.
Proof. reflexivity. Qed.

Example loads_dumps_sample : Json.loads (Json.dumps sample_cache) = Some sample_cache.
Proof. vm_compute. reflexivity. Qed.

(** ** Strings *)

Module StrFacts.

Local Open Scope string_scope.

Lemma append_assoc (a b c : string) : (a ++ b) ++ c = a ++ (b ++ c).
Proof. induction a as [|x a IH]; simpl; [reflexivity | now rewrite IH]. Qed.



Lemma eqb_refl_char (c : ascii) : (c =? c)%char = true.
Proof. apply Ascii.eqb_refl. Qed.

End StrFacts.

(** ** Dictionaries with distinct keys *)

Module DictFacts.

Section Values.

Context {V : Type}.




Lemma mem_app (k : string) (d d' : list (string * V)) :
  Dict.mem k (d ++ d') = Dict.mem k d || Dict.mem k d'.
Proof.
  induction d as [|[k0 v0] d IH]; simpl; [reflexivity|].
  now rewrite IH, orb_assoc.
Qed.





Lemma mem_set_same (k : string) (v : V) (d : list (string * V)) :
  Dict.mem k (Dict.set k v d) = true.
Proof.
  induction d as [|[k0 v0] d IH]; simpl.
  - now rewrite String.eqb_refl.
  - destruct (String.eqb_spec k0 k) as [->|Hne]; simpl.
    + now rewrite String.eqb_refl.
    + now rewrite IH, orb_true_r.
Qed.

Lemma mem_get (k : string) (d : list (string * V)) :
  Dict.mem k d = true <-> exists v, Dict.get k d = Some v.
Proof.
  induction d as [|[k0 v0] d IH]; simpl.
  - split; [discriminate | intros [v H]; discriminate H].
  - destruct (String.eqb_spec k0 k); simpl.
    + split; eauto.
    + assumption.
Qed.


End Values.

End DictFacts.

(** ** The JSON codec: what [dumps] writes, [loads] reads back *)

Module JsonFacts.

Import Py Json JsonSpec StrFacts DictFacts.
Local Open Scope string_scope.

(** *** String literals *)

Lemma parse_string_escape_char (c : ascii) (t : string) :
  parse_string (escape_char c ++ t) = push c (parse_string t).
Proof.
  destruct c as [[|] [|] [|] [|] [|] [|] [|] [|]]; reflexivity.
Qed.

Lemma parse_string_escape (s rest : string) :
  parse_string (escape s ++ String dquote rest) = Some (s, rest).
Proof.
  induction s as [|c s IH]; simpl.
  - reflexivity.
  - rewrite append_assoc, parse_string_escape_char, IH. reflexivity.
Qed.

Lemma parse_string_quote (s rest : string) :
  parse_string (escape s ++ String dquote EmptyString ++ rest) = Some (s, rest).
Proof. apply parse_string_escape. Qed.

(** *** Integers *)








(** *** Where a printed value starts *)








(** *** Joined sequences *)






(** *** One step of each scanner loop *)

Lemma parse_elems_S (n : nat) (s : string) :
  parse_elems (S n) s =
  match parse_value n s with
  | None => None
  | Some (v, r) =>
      match skip_ws r with
      | EmptyString => None
      | String c r' =>
          if (c =? ",")%char then tagged (cons v) (parse_elems n (skip_ws r'))
          else if (c =? "]")%char then Some ([v], r')
          else None
      end
  end.
Proof. reflexivity. Qed.

Lemma parse_members_S (n : nat) (s : string) :
  parse_members (S n) (String dquote s) =
  match parse_string s with
  | None => None
  | Some (k, r1) =>
      match skip_ws r1 with
      | EmptyString => None
      | String c1 r2 =>
          if (c1 =? ":")%char then
            match parse_value n (skip_ws r2) with
            | None => None
            | Some (v, r3) =>
                match skip_ws r3 with
                | EmptyString => None
                | String c3 r4 =>
                    if (c3 =? ",")%char then
                      tagged (cons (k, v)) (parse_members n (skip_ws r4))
                    else if (c3 =? "}")%char then Some ([(k, v)], r4)
                    else None
                end
            end
          else None
      end
  end.
Proof. reflexivity. Qed.




(** *** The round trip *)







(** *** What the scanner returns is well formed *)



Lemma parse_value_S (n : nat) (c : ascii) (r : string) :
  parse_value (S n) (String c r) =
  if (c =? "[")%char then
    match skip_ws r with
    | EmptyString => None
    | String c' r' =>
        if (c' =? "]")%char then Some (JList [], r')
        else tagged JList (parse_elems n (skip_ws r))
    end
  else if (c =? "{")%char then
    match skip_ws r with
    | EmptyString => None
    | String c' r' =>
        if (c' =? "}")%char then Some (JDict [], r')
        else tagged (fun ps => JDict (Dict.of_pairs ps))
               (parse_members n (skip_ws r))
    end
  else if (c =? dquote)%char then tagged JStr (parse_string r)
  else if (c =? "n")%char then tagged (fun _ : unit => JNull)
         (option_map (pair tt) (strip_prefix "ull" r))
  else if (c =? "t")%char then tagged (fun _ : unit => JBool true)
         (option_map (pair tt) (strip_prefix "rue" r))
  else if (c =? "f")%char then tagged (fun _ : unit => JBool false)
         (option_map (pair tt) (strip_prefix "alse" r))
  else tagged JInt (parse_int (String c r)).
Proof. reflexivity. Qed.

Lemma parse_members_S' (n : nat) (c : ascii) (r : string) :
  parse_members (S n) (String c r) =
  if (c =? dquote)%char then parse_members (S n) (String dquote r) else None.
Proof.
  simpl. destruct (Ascii.eqb_spec c dquote) as [->|]; reflexivity.
Qed.

Lemma tagged_some (A B : Type) (f : A -> B) (o : option (A * string))
    (b : B) (r : string) :
  tagged f o = Some (b, r) -> exists a, o = Some (a, r) /\ b = f a.
Proof.
  destruct o as [[a r']|]; simpl; [|discriminate].
  intros [= <- <-]. eauto.
Qed.



(** *** The bound on the scanner is never the reason for a failure

    Every call of the scanner consumes at least one character, so a result
    found with some bound is found with the number of characters consumed,
    and [loads], which starts with the length of the text, loses nothing. *)

Lemma length_cons (c : ascii) (s : string) :
  String.length (String c s) = S (String.length s).
Proof. reflexivity. Qed.

Lemma skip_ws_length (s : string) :
  (String.length (skip_ws s) <= String.length s)%nat.
Proof.
  unfold skip_ws. induction s as [|c s IH]; simpl; [lia|].
  destruct (is_ws c); simpl; lia.
Qed.

Lemma push_length (c : ascii) (o : option (string * string)) (k r : string) :
  push c o = Some (k, r) -> exists k', o = Some (k', r).
Proof. destruct o as [[k' r']|]; simpl; [intros [= <- <-]; eauto | discriminate]. Qed.

Lemma parse_string_length (s k r : string) :
  parse_string s = Some (k, r) -> (String.length r < String.length s)%nat.
Proof.
  remember (String.length s) as n eqn:Hn.
  revert s k r Hn.
  induction n as [n IH] using lt_wf_ind. intros s k r Hn H.
  destruct s as [|c s]; [discriminate H|]. simpl in Hn. simpl in H.
  destruct (c =? dquote)%char.
  { injection H as <- <-. lia. }
  destruct (c =? backslash)%char.
  { destruct s as [|e s1]; [discriminate H|].
    destruct (e =? "u")%char.
    - destruct s1 as [|h1 [|h2 [|h3 [|h4 s2]]]]; try discriminate H.
      destruct (hex4 h1 h2 h3 h4); [|discriminate H].
      apply push_length in H as [k' H].
      apply (IH (String.length s2)) in H; simpl in *; try lia.
    - destruct (unescape e); [|discriminate H].
      apply push_length in H as [k' H].
      apply (IH (String.length s1)) in H; simpl in *; try lia. }
  destruct (code c <? 32)%N; [discriminate H|].
  apply push_length in H as [k' H].
  apply (IH (String.length s)) in H; simpl in *; lia.
Qed.

Lemma strip_prefix_length (p s r : string) :
  strip_prefix p s = Some r -> (String.length r <= String.length s)%nat.
Proof.
  revert s. induction p as [|a p IH]; intros s H; simpl in H.
  - injection H as <-. lia.
  - destruct s as [|b s]; [discriminate H|].
    destruct (a =? b)%char; [|discriminate H].
    apply IH in H. simpl. lia.
Qed.

Lemma read_digits_length (s : string) :
  (String.length (snd (read_digits s)) <= String.length s)%nat.
Proof.
  induction s as [|c s IH]; simpl; [lia|].
  destruct (is_digit c); simpl; [|lia].
  destruct (read_digits s) as [u r']. simpl in *. lia.
Qed.

Lemma parse_int_length (s r : string) (z : Z) :
  parse_int s = Some (z, r) -> (String.length r < String.length s)%nat.
Proof.
  unfold parse_int. intros H.
  assert (G : forall (neg : bool) (s1 : string),
             (String.length s1 <= String.length s)%nat ->
             match s1 with
             | EmptyString => None
             | String c r0 =>
                 if is_digit c then
                   let (u, r') :=
                     if (c =? "0")%char then (D0 Nil, r0) else read_digits s1 in
                   if float_follows r' then None
                   else Some (Z.of_int (if neg then Neg u else Pos u), r')
                 else None
             end = Some (z, r) ->
             (String.length r < String.length s)%nat).
  { intros neg s1 Hle G. destruct s1 as [|c r0]; [discriminate G|].
    destruct (is_digit c) eqn:Hc; [|discriminate G].
    destruct (c =? "0")%char.
    - destruct (float_follows r0); [discriminate G|].
      injection G as _ <-. simpl in Hle. lia.
    - pose proof (read_digits_length r0) as Hl.
      simpl in G. rewrite Hc in G.
      destruct (read_digits r0) as [u r']. simpl in Hl.
      destruct (float_follows r'); [discriminate G|].
      injection G as _ <-. simpl in Hle. lia. }
  destruct s as [|c s0]; [discriminate H|].
  destruct (c =? "-")%char.
  - apply (G true s0); [simpl; lia | exact H].
  - apply (G false (String c s0)); [lia | exact H].
Qed.

Lemma tagged_unit_some (B : Type) (b b' : B) (p r r' : string) :
  tagged (fun _ : unit => b) (option_map (pair tt) (strip_prefix p r)) = Some (b', r') ->
  b' = b /\ (String.length r' <= String.length r)%nat.
Proof.
  destruct (strip_prefix p r) as [r0|] eqn:E; simpl; [|discriminate].
  intros [= <- <-]. split; [reflexivity|]. eapply strip_prefix_length, E.
Qed.

Lemma parse_enough (n : nat) :
  (forall s v r, parse_value n s = Some (v, r) ->
     (String.length r < String.length s)%nat
     /\ forall m, (String.length s - String.length r <= m)%nat ->
                  parse_value m s = Some (v, r))
  /\ (forall s l r, parse_elems n s = Some (l, r) ->
        (String.length r < String.length s)%nat
        /\ forall m, (String.length s - String.length r <= m)%nat ->
                     parse_elems m s = Some (l, r))
  /\ (forall s ps r, parse_members n s = Some (ps, r) ->
        (String.length r < String.length s)%nat
        /\ forall m, (String.length s - String.length r <= m)%nat ->
                     parse_members m s = Some (ps, r)).
Proof.
  induction n as [|n (IHv & IHe & IHm)].
  - repeat split; intros; discriminate.
  - split; [|split].
    + intros s v r H. destruct s as [|c s]; [discriminate H|].
      rewrite parse_value_S in H.
      pose proof (skip_ws_length s) as Hws.
      destruct (c =? "[")%char eqn:E1.
      { destruct (skip_ws s) as [|c' r'] eqn:E; [discriminate H|].
        destruct (c' =? "]")%char eqn:E2.
        - injection H as <- <-. rewrite ?length_cons in *. split; [lia|].
          intros [|m] Hm; rewrite ?length_cons in Hm; [lia|].
          rewrite parse_value_S, E1, E, E2. reflexivity.
        - apply tagged_some in H as (l & H & ->).
          destruct (IHe _ _ _ H) as [Hlt Hm']. rewrite ?length_cons in *. split; [lia|].
          intros [|m] Hm; rewrite ?length_cons in Hm; [lia|].
          rewrite parse_value_S, E1, E, E2.
          rewrite Hm' by lia. reflexivity. }
      destruct (c =? "{")%char eqn:E2.
      { destruct (skip_ws s) as [|c' r'] eqn:E; [discriminate H|].
        destruct (c' =? "}")%char eqn:E3.
        - injection H as <- <-. rewrite ?length_cons in *. split; [lia|].
          intros [|m] Hm; rewrite ?length_cons in Hm; [lia|].
          rewrite parse_value_S, E1, E2, E, E3. reflexivity.
        - apply tagged_some in H as (ps & H & ->).
          destruct (IHm _ _ _ H) as [Hlt Hm']. rewrite ?length_cons in *. split; [lia|].
          intros [|m] Hm; rewrite ?length_cons in Hm; [lia|].
          rewrite parse_value_S, E1, E2, E, E3.
          rewrite Hm' by lia. reflexivity. }
      assert (Hlt : (String.length r < String.length (String c s))%nat).
      { destruct (c =? dquote)%char.
        { apply tagged_some in H as (k & H & _).
          apply parse_string_length in H. simpl. lia. }
        destruct (c =? "n")%char.
        { apply tagged_unit_some in H as [_ H]. simpl. lia. }
        destruct (c =? "t")%char.
        { apply tagged_unit_some in H as [_ H]. simpl. lia. }
        destruct (c =? "f")%char.
        { apply tagged_unit_some in H as [_ H]. simpl. lia. }
        apply tagged_some in H as (z & H & _).
        now apply parse_int_length in H. }
      split; [exact Hlt|].
      intros [|m] Hm; rewrite ?length_cons in *; [lia|].
      rewrite parse_value_S, E1, E2. exact H.
    + intros s l r H. rewrite parse_elems_S in H.
      destruct (parse_value n s) as [[v r1]|] eqn:Ev; [|discriminate H].
      destruct (IHv _ _ _ Ev) as [Hlt1 Hm1].
      pose proof (skip_ws_length r1) as Hws.
      destruct (skip_ws r1) as [|c r2] eqn:E; [discriminate H|].
      destruct (c =? ",")%char eqn:E1.
      * apply tagged_some in H as (l' & H & ->).
        destruct (IHe _ _ _ H) as [Hlt2 Hm2].
        pose proof (skip_ws_length r2) as Hws2. rewrite ?length_cons in *.
        split; [lia|].
        intros [|m] Hm; rewrite ?length_cons in Hm; [lia|].
        rewrite parse_elems_S.
        rewrite Hm1 by lia. rewrite E, E1. rewrite Hm2 by lia. reflexivity.
      * destruct (c =? "]")%char eqn:E2; [|discriminate H].
        injection H as <- <-. rewrite ?length_cons in *. split; [lia|].
        intros [|m] Hm; rewrite ?length_cons in Hm; [lia|].
        rewrite parse_elems_S.
        rewrite Hm1 by lia. rewrite E, E1, E2. reflexivity.
    + intros s ps r H. destruct s as [|c s]; [discriminate H|].
      rewrite parse_members_S' in H.
      destruct (Ascii.eqb_spec c dquote) as [->|]; [|discriminate H].
      rewrite parse_members_S in H.
      destruct (parse_string s) as [[k r1]|] eqn:Ek; [|discriminate H].
      pose proof (parse_string_length _ _ _ Ek) as Hk.
      pose proof (skip_ws_length r1) as Hws1.
      destruct (skip_ws r1) as [|c1 r2] eqn:E1; [discriminate H|].
      destruct (c1 =? ":")%char eqn:Ec1; [|discriminate H].
      pose proof (skip_ws_length r2) as Hws2.
      destruct (parse_value n (skip_ws r2)) as [[v r3]|] eqn:Ev; [|discriminate H].
      destruct (IHv _ _ _ Ev) as [Hlt1 Hm1].
      pose proof (skip_ws_length r3) as Hws3.
      destruct (skip_ws r3) as [|c3 r4] eqn:E3; [discriminate H|].
      destruct (c3 =? ",")%char eqn:Ec3.
      * apply tagged_some in H as (ps' & H & ->).
        destruct (IHm _ _ _ H) as [Hlt2 Hm2].
        pose proof (skip_ws_length r4) as Hws4. rewrite ?length_cons in *.
        split; [lia|].
        intros [|m] Hm; rewrite ?length_cons in Hm; [lia|].
        rewrite parse_members_S, Ek, E1, Ec1.
        rewrite Hm1 by lia. rewrite E3, Ec3. rewrite Hm2 by lia. reflexivity.
      * destruct (c3 =? "}")%char eqn:Ec4; [|discriminate H].
        injection H as <- <-. rewrite ?length_cons in *. split; [lia|].
        intros [|m] Hm; rewrite ?length_cons in Hm; [lia|].
        rewrite parse_members_S, Ek, E1, Ec1.
        rewrite Hm1 by lia. rewrite E3, Ec3, Ec4. reflexivity.
Qed.

(** A value the scanner finds with any bound, [loads] finds too. *)
Lemma loads_any_bound (n : nat) (s : string) (v : json) (rest : string) :
  parse_value n (skip_ws s) = Some (v, rest) ->
  skip_ws rest = EmptyString ->
  loads s = Some v.
Proof.
  intros H Hrest. unfold loads.
  destruct (proj1 (parse_enough n) _ _ _ H) as [_ Hm].
  pose proof (skip_ws_length s).
  rewrite Hm by lia. now rewrite Hrest.
Qed.

End JsonFacts.

(** ** The state prompt *)

Local Open Scope string_scope.

Lemma resolve_table_entry (entry : string * string) :
  In entry states ->
  resolve_state (fst entry) = StateUrl (state_page_url (snd entry))
  /\ resolve_state (snd entry) = StateUrl (state_page_url (snd entry)).
Proof.
  unfold states. intros H.
  repeat (destruct H as [H | H]; [subst entry; split; vm_compute; reflexivity |]).
  destruct H.
Qed.

(** C3: every spelling of a state of the table (its full name or its
    two-letter abbreviation, in any letter case) resolves to one and the same
    state page URL. *)
Theorem C3_spellings_resolve_alike (entry : string * string) (typed1 typed2 : string) :
  In entry states ->
  spells typed1 entry ->
  spells typed2 entry ->
  resolve_state (Py.lower typed1) = resolve_state (Py.lower typed2)
  /\ resolve_state (Py.lower typed1) = StateUrl (state_page_url (snd entry)).
Proof.
  intros Hin H1 H2.
  destruct (resolve_table_entry entry Hin) as [Hname Habbr].
  assert (E : forall typed, spells typed entry ->
              resolve_state (Py.lower typed) = StateUrl (state_page_url (snd entry))).
  { intros typed [Ht | Ht]; rewrite Ht; assumption. }
  rewrite (E typed1 H1), (E typed2 H2). split; reflexivity.
Qed.

Lemma C3_spellings_resolve_alike_witness :
  resolve_state (Py.lower "Michigan") = resolve_state (Py.lower "MI")
  /\ resolve_state (Py.lower "Michigan")
     = StateUrl (state_page_url (snd ("michigan", "mi"))).
Proof.
  apply (C3_spellings_resolve_alike ("michigan", "mi") "Michigan" "MI").
  - unfold states. simpl. do 24 right. left. reflexivity.
  - left. reflexivity.
  - right. reflexivity.
Defined.

(** C7: on "michigan" and on "mi" the loop fetches the site list from
    https://www.nps.gov/mi//index.htm, which ends with "mi//index.htm" and
    not with "/mi/index.htm": the path is built with two slashes in a row. *)
Theorem C7_michigan_url_has_double_slash :
  resolve_state (Py.lower "michigan") = StateUrl "https://www.nps.gov/mi//index.htm"
  /\ resolve_state (Py.lower "mi") = StateUrl "https://www.nps.gov/mi//index.htm"
  /\ Py.endswith "https://www.nps.gov/mi//index.htm" "/mi/index.htm" = false
  /\ Py.endswith "https://www.nps.gov/mi//index.htm" "/mi//index.htm" = true.
Proof. repeat split. Qed.

(** ** The program on the sample pages *)

Example extract_isle_royale :
  extract_site Samples.isle_royale_page
  = Ok (mkNationalSite "National Park" "Isle Royale" "Houghton, MI" "49931"
          "(906) 482-0984" None).
Proof. vm_compute. reflexivity. Qed.

Example sites_of_michigan :
  fst (get_sites_for_state Samples.env "https://www.nps.gov/mi//index.htm"
         (Samples.fresh []))
  = Ok [Samples.isle_royale; Samples.keweenaw].
Proof. vm_compute. reflexivity. Qed.

Example state_dict_of_index :
  fst (build_state_url_dict Samples.env (Samples.fresh []))
  = Ok [("michigan", "https://www.nps.gov/state/mi/index.htm");
        ("ohio", "https://www.nps.gov/state/oh/index.htm")].
Proof. vm_compute. reflexivity. Qed.

Example nearby_of_answer :
  make_nearby_instance_list Samples.places_answer
  = Ok [mkNearbyPlace (JStr "Cafe") "Restaurants" "1 Main St" "Houghton"].
Proof. vm_compute. reflexivity. Qed.

Example session_michigan :
  let w := snd (main Samples.env (Samples.fresh ["Michigan"; "1"; "back"; "exit"])) in
  printed (trace w)
  = ["Fetching"; "Fetching"; "Fetching";
     dashes; "List of national sites in michigan"; dashes;
     "[ 1 ]  Isle Royale (National Park): Houghton, MI 49931";
     "[ 2 ]  Keweenaw (National Historical Park): Calumet, MI 49913";
     "Using cache"; "Fetching";
     dashes; "Places near Isle Royale"; dashes;
     "- Cafe (Restaurants): 1 Main St, Houghton"]
  /\ fst (main Samples.env (Samples.fresh ["Michigan"; "1"; "back"; "exit"])) = Ok tt.
Proof. vm_compute. split; reflexivity. Qed.

(** ** Fields of a detail page *)

Lemma extract_site_unfold (park_soup : node) :
  extract_site park_soup =
  rbind (title_text park_soup) (fun park_name =>
    Ok (NationalSite_init
          (try_except
             (rbind (category_text park_soup) (fun c =>
                Ok (if (c =? EmptyString)%string then "Not found category" else c)))
             "Not found category")
          park_name
          (try_except (address_text park_soup) "Not found address")
          (try_except (zip_text park_soup) "Not found zipcode")
          (try_except (phone_text park_soup) "Not found phone number")
          None)).
Proof. reflexivity. Qed.

(** A lookup through [p.adr] fails exactly when a node on its path is
    missing: the footer, the paragraph, or the span. *)
Lemma adr_span_text_fails (footer : option node) (f : attr_filter) :
  is_ok (adr_span_text footer f) = false <->
  footer = None
  \/ (exists p, footer = Some p /\ Soup.find "p" (Class "adr") p = None)
  \/ (exists p a, footer = Some p /\ Soup.find "p" (Class "adr") p = Some a
                  /\ Soup.find "span" f a = None).
Proof.
  unfold adr_span_text. destruct footer as [p|]; simpl.
  - destruct (Soup.find "p" (Class "adr") p) as [a|] eqn:Ea; simpl.
    + destruct (Soup.find "span" f a) as [s|] eqn:Es; simpl.
      * split; [discriminate|].
        intros [H | [(p' & H & H') | (p' & a' & H & H' & H'')]];
          try discriminate; injection H as <-; congruence.
      * split; [|reflexivity]. intros _. right. right. eauto.
    + split; [|reflexivity]. intros _. right. left. eauto.
  - split; [|reflexivity]. intros _. left. reflexivity.
Qed.

(** C4, as the specification words it, fails: a zip code node that holds
    only white space gives the empty string, not the placeholder. *)
Lemma C4_blank_zip_is_kept : ~ placeholders_for_missing_or_blank.
Proof.
  intros H.
  destruct (H Samples.blank_fields_page
              (mkNationalSite "Park" "Somewhere" "Town, MI" EmptyString
                 EmptyString None) eq_refl) as (_ & _ & Hzip & _).
  specialize (Hzip eq_refl). discriminate Hzip.
Qed.

(** C4, amended: once the title of the page is found, [extract_site]
    returns a record, whatever the rest of the page looks like; each of the
    four fields is its placeholder when its lookup fails; the category is
    also its placeholder when its trimmed text is empty; a lookup that
    succeeds gives the trimmed zip code, the address, the phone number
    without the line ends around it, and the non-empty trimmed category. *)
Theorem C4_placeholders_on_failed_lookup (park_soup : node) (title : string) :
  title_text park_soup = Ok title ->
  exists site,
    extract_site park_soup = Ok site
    /\ name site = title
    /\ (is_ok (category_text park_soup) = false
        \/ category_text park_soup = Ok EmptyString ->
        category site = "Not found category")
    /\ (is_ok (address_text park_soup) = false ->
        address site = "Not found address")
    /\ (is_ok (zip_text park_soup) = false ->
        zipcode site = "Not found zipcode")
    /\ (is_ok (phone_text park_soup) = false ->
        phone site = "Not found phone number")
    /\ (forall t, category_text park_soup = Ok t -> t <> EmptyString ->
                  category site = t)
    /\ (forall t, address_text park_soup = Ok t -> address site = t)
    /\ (forall t, zip_text park_soup = Ok t -> zipcode site = t)
    /\ (forall t, phone_text park_soup = Ok t -> phone site = Py.strip_newline t).
Proof.
  intros Ht. rewrite extract_site_unfold, Ht. simpl rbind.
  eexists. split; [reflexivity|]. unfold NationalSite_init. simpl.
  repeat split.
  - intros [H | H].
    + destruct (category_text park_soup); [discriminate H | reflexivity].
    + rewrite H. reflexivity.
  - intros H. destruct (address_text park_soup); [discriminate H | reflexivity].
  - intros H. destruct (zip_text park_soup); [discriminate H | reflexivity].
  - intros H. destruct (phone_text park_soup); [discriminate H | reflexivity].
  - intros t H Hne. rewrite H. simpl.
    destruct (String.eqb_spec t EmptyString); [contradiction | reflexivity].
  - intros t H. rewrite H. reflexivity.
  - intros t H. rewrite H. reflexivity.
  - intros t H. rewrite H. reflexivity.
Qed.

Lemma C4_placeholders_on_failed_lookup_witness :
  exists site,
    extract_site Samples.bare_page = Ok site
    /\ name site = "Nowhere"
    /\ (is_ok (category_text Samples.bare_page) = false
        \/ category_text Samples.bare_page = Ok EmptyString ->
        category site = "Not found category")
    /\ (is_ok (address_text Samples.bare_page) = false ->
        address site = "Not found address")
    /\ (is_ok (zip_text Samples.bare_page) = false ->
        zipcode site = "Not found zipcode")
    /\ (is_ok (phone_text Samples.bare_page) = false ->
        phone site = "Not found phone number")
    /\ (forall t, category_text Samples.bare_page = Ok t -> t <> EmptyString ->
                  category site = t)
    /\ (forall t, address_text Samples.bare_page = Ok t -> address site = t)
    /\ (forall t, zip_text Samples.bare_page = Ok t -> zipcode site = t)
    /\ (forall t, phone_text Samples.bare_page = Ok t ->
                  phone site = Py.strip_newline t).
Proof.
  apply (C4_placeholders_on_failed_lookup Samples.bare_page "Nowhere").
  vm_compute. reflexivity.
Defined.

Example bare_page_gets_every_placeholder :
  extract_site Samples.bare_page
  = Ok (mkNationalSite "Not found category" "Nowhere" "Not found address"
          "Not found zipcode" "Not found phone number" None).
Proof. vm_compute. reflexivity. Qed.

(** ** Items of a places answer *)

(** C6: an item whose [fields] holds neither category field makes
    [make_nearby_instance_list] raise [KeyError]: the handler of the first
    lookup reads the alternate field outside any [try].  The same happens
    without [fields]; and an alternate field that is blank gives the empty
    category, not the placeholder. *)
Theorem C6_missing_category_raises :
  make_nearby_instance_list (answer_of [item_without_category]) = Raise KeyError
  /\ make_nearby_instance_list (answer_of [item_without_fields]) = Raise KeyError
  /\ make_nearby_instance_list (answer_of [item_with_blank_alternate])
     = Ok [mkNearbyPlace (JStr "Cafe") EmptyString "no street address" "no city"].
Proof. repeat split. Qed.

(** Where the fallback does work: the alternate field when the primary one
    is missing, the placeholder when the primary one is blank. *)
Example category_fallbacks :
  make_nearby_instance_list (answer_of [item_with_alternate_only])
  = Ok [mkNearbyPlace (JStr "Cafe") "Diners" "no street address" "no city"]
  /\ make_nearby_instance_list (answer_of [item_with_blank_category])
     = Ok [mkNearbyPlace (JStr "Cafe") "no category" "no street address" "no city"].
Proof. repeat split. Qed.

(** ** The trace grows at its end *)

Lemma world_eta (w : World) :
  mkWorld (files w) (network w) (CACHE_DICT w) (stdin w) (trace w) = w.
Proof. destruct w; reflexivity. Qed.

Lemma log_events_nil (w : World) : log_events [] w = w.
Proof. unfold log_events. rewrite List.app_nil_r. apply world_eta. Qed.

Lemma log_events_app (evs evs' : list event) (w : World) :
  log_events evs' (log_events evs w) = log_events (evs ++ evs') w.
Proof. unfold log_events. simpl. now rewrite <- List.app_assoc. Qed.

Lemma log_event_events (e : event) (w : World) : log_event e w = log_events [e] w.
Proof. reflexivity. Qed.

(** ** The listing *)

Lemma print_sites_lines (sites_list : list NationalSite) :
  forall (i : Z) (w : World),
    print_sites i sites_list w
    = (Ok (i + Py.len sites_list)%Z,
       log_events (map EPrint (listing_lines i sites_list)) w).
Proof.
  induction sites_list as [|site r IH]; intros i w.
  - simpl. unfold ret, Py.len. simpl. now rewrite Z.add_0_r, log_events_nil.
  - simpl print_sites. unfold bind, print. rewrite IH.
    rewrite log_event_events, log_events_app. simpl.
    f_equal. f_equal. unfold Py.len. simpl length. lia.
Qed.

(** The sites are listed once, in order, numbered from 1; the bound of the
    outer loop is never reached. *)
Lemma listing_numbered_from_one (sites_list : list NationalSite) (w : World) :
  print_listing sites_list w
  = (Ok tt, log_events (map EPrint (listing_lines 1 sites_list)) w).
Proof.
  unfold print_listing. simpl listing_from.
  destruct (1 <=? Py.len sites_list)%Z eqn:E.
  - unfold bind. rewrite print_sites_lines.
    assert (H : (1 + Py.len sites_list <=? Py.len sites_list)%Z = false)
      by (apply Z.leb_gt; lia).
    rewrite H. reflexivity.
  - apply Z.leb_gt in E. unfold Py.len in E.
    destruct sites_list; [| simpl in E; lia].
    simpl. now rewrite log_events_nil.
Qed.

(** ** The detail prompt *)

Lemma detail_choice_back_exit (env : Env) (sites_list : list NationalSite)
    (typed : string) (rest : list string) (w : World) :
  stdin w = typed :: rest ->
  (Py.lower typed = "back" ->
   detail_choice env sites_list w = (Ok Back, after_input detail_prompt w))
  /\ (Py.lower typed = "exit" ->
      detail_choice env sites_list w = (Ok ExitAll, after_input detail_prompt w)).
Proof.
  intros Hin. unfold detail_choice, bind, input. simpl. rewrite Hin.
  split; intros ->; reflexivity.
Qed.

(** Anything that is not a number, and any number above the length of the
    list, is answered by the error message, without a request. *)
Lemma detail_choice_rejects (env : Env) (sites_list : list NationalSite)
    (typed : string) (rest : list string) (w : World) :
  stdin w = typed :: rest ->
  Py.lower typed <> "back" ->
  Py.lower typed <> "exit" ->
  Py.isnumeric (Py.lower typed) = false
  \/ (exists n, Py.int (Py.lower typed) = Ok n /\ (Py.len sites_list < n)%Z) ->
  detail_choice env sites_list w
  = (Ok Stay, log_events invalid_input_events (after_input detail_prompt w)).
Proof.
  intros Hin Hb He Hcase.
  assert (Hinvalid : forall w',
            bind invalid_input (fun _ => ret Stay) w'
            = (Ok Stay, log_events invalid_input_events w')).
  { intros w'. unfold invalid_input, bind, print, ret.
    now rewrite !log_event_events, !log_events_app. }
  unfold detail_choice, bind at 1, input. rewrite Hin. cbv zeta.
  fold (after_input detail_prompt w).
  destruct (String.eqb_spec (Py.lower typed) "back"); [contradiction|].
  destruct (String.eqb_spec (Py.lower typed) "exit"); [contradiction|].
  destruct Hcase as [Hn | (k & Hk & Hlt)].
  - rewrite Hn. apply Hinvalid.
  - destruct (Py.isnumeric (Py.lower typed)); [| apply Hinvalid].
    unfold bind at 1, lift. rewrite Hk.
    assert (H : (k <=? Py.len sites_list)%Z = false) by (apply Z.leb_gt; lia).
    rewrite H. apply Hinvalid.
Qed.

(** C5: "0" is a number outside 1..n, and yet the program takes it: only
    the upper end of the range is tested, and index -1 is the last site.  With
    two sites listed, typing "0" fetches the page of the second and queries
    the places near it, and no error message is printed.  With no site
    listed, the same input ends the program with [IndexError]; and a
    superscript two, numeric for [isnumeric] but no digit for [int], ends it
    with [ValueError]. *)
Theorem C5_zero_queries_the_last_site :
  let sites_list := [Samples.isle_royale; Samples.keweenaw] in
  let run := detail_choice Samples.env sites_list (Samples.fresh ["0"]) in
  fst run = Ok Stay
  /\ requests_of (trace (snd run))
     = [("https://www.nps.gov/kewe/index.htm", []);
        (Samples.api_url,
         [("key", "secret"); ("origin", "49913"); ("radius", "10");
          ("maxMatches", "10"); ("ambiguities", "ignore"); ("outFormat", "json")])]
  /\ printed (trace (snd run))
     = ["Fetching"; "Fetching"; dashes; "Places near Keweenaw"; dashes;
        "- Cafe (Restaurants): 1 Main St, Houghton"]
  /\ fst (detail_choice Samples.env [] (Samples.fresh ["0"])) = Raise IndexError
  /\ fst (detail_choice Samples.env sites_list
            (Samples.fresh [String (ascii_of_N 178) EmptyString]))
     = Raise ValueError.
Proof. vm_compute. repeat split. Qed.

(** ** The cache *)

Import JsonFacts DictFacts.

Lemma load_cache_spec (w : World) :
  load_cache w = (Ok (cache_of w), log_events [EOpenRead CACHE_FILE_NAME] w).
Proof.
  unfold load_cache, cache_of.
  destruct (files w CACHE_FILE_NAME) as [contents|]; [|reflexivity].
  destruct (Json.loads contents); reflexivity.
Qed.


Lemma cache_of_file (w w' : World) :
  files w' CACHE_FILE_NAME = files w CACHE_FILE_NAME -> cache_of w' = cache_of w.
Proof. unfold cache_of. now intros ->. Qed.




(** *** Page fetches *)

Lemma getitem_found (k : string) (d : list (string * json)) (v : json) (w : World) :
  Dict.get k d = Some v -> getitem k d w = (Ok v, w).
Proof. unfold getitem. now intros ->. Qed.

Lemma page_fetch_hit (u : string) (d : list (string * json)) (v : json) (w : World) :
  Dict.get u d = Some v ->
  make_url_request_using_cache u (JDict d) w
  = (Ok v, log_events [EPrint "Using cache"] w).
Proof.
  intros Hget. unfold make_url_request_using_cache.
  assert (Hmem : Dict.mem u d = true) by (apply mem_get; eauto).
  rewrite Hmem. unfold bind, print.
  now rewrite (getitem_found u d v _ Hget).
Qed.


(** *** API fetches *)









(** ** The global CACHE_DICT is never touched *)

Section Tame.

Local Open Scope io_scope.

Lemma tame_ret (A : Type) (a : A) : tame (ret a).
Proof.
  split; [intros g w; reflexivity|].
  intros w. exists []. simpl. now rewrite List.app_nil_r.
Qed.

Lemma tame_raise (A : Type) (e : exn) : tame (@raise A e).
Proof.
  split; [intros g w; reflexivity|].
  intros w. exists []. simpl. now rewrite List.app_nil_r.
Qed.

Lemma tame_lift (A : Type) (r : result A) : tame (lift r).
Proof.
  split; [intros g w; reflexivity|].
  intros w. exists []. simpl. now rewrite List.app_nil_r.
Qed.

Lemma tame_print (text : string) : tame (print text).
Proof. split; [intros g w; reflexivity | intros w; eexists; reflexivity]. Qed.

Lemma tame_sleep (seconds : Z) : tame (sleep seconds).
Proof. split; [intros g w; reflexivity | intros w; eexists; reflexivity]. Qed.

Lemma tame_requests_get (u : string) (params : list (string * string)) :
  tame (requests_get u params).
Proof. split; [intros g w; reflexivity | intros w; eexists; reflexivity]. Qed.

Lemma tame_save_cache (cache : json) : tame (save_cache cache).
Proof. split; [intros g w; reflexivity | intros w; eexists; reflexivity]. Qed.

Lemma tame_input (prompt : string) : tame (input prompt).
Proof.
  split.
  - intros g w. unfold input. simpl stdin. destruct (stdin w); reflexivity.
  - intros w. unfold input. destruct (stdin w); eexists; reflexivity.
Qed.

Lemma tame_load_cache : tame load_cache.
Proof.
  split.
  - intros g w. rewrite !load_cache_spec. reflexivity.
  - intros w. rewrite load_cache_spec. eexists; reflexivity.
Qed.

Lemma tame_bind (A B : Type) (m : M A) (k : A -> M B) :
  tame m -> (forall a, tame (k a)) -> tame (bind m k).
Proof.
  intros [Hg Ht] Hk. split.
  - intros g w. unfold bind. rewrite Hg.
    destruct (m w) as [[a|e] w1]; simpl; [|reflexivity].
    apply (proj1 (Hk a)).
  - intros w. unfold bind. destruct (Ht w) as [evs E].
    destruct (m w) as [[a|e] w1]; simpl in *.
    + destruct (proj2 (Hk a) w1) as [evs' E'].
      exists (evs ++ evs')%list. now rewrite E', E, List.app_assoc.
    + eauto.
Qed.

Lemma tame_for_each (A : Type) (l : list A) (body : A -> M unit) :
  (forall a, tame (body a)) -> tame (for_each l body).
Proof.
  intros Hb. induction l as [|x l IH]; simpl.
  - apply tame_ret.
  - apply tame_bind; auto.
Qed.

Lemma tame_collect (A B : Type) (l : list A) (body : A -> M B) :
  (forall a, tame (body a)) -> tame (collect l body).
Proof.
  intros Hb. induction l as [|x l IH]; simpl.
  - apply tame_ret.
  - apply tame_bind; [auto|]. intros y.
    apply tame_bind; [auto|]. intros ys. apply tame_ret.
Qed.

Lemma tame_getitem (k : string) (d : list (string * json)) : tame (getitem k d).
Proof. unfold getitem. destruct (Dict.get k d); [apply tame_ret | apply tame_raise]. Qed.

End Tame.

Create HintDb tame.

Ltac tame_step :=
  first
    [ solve [auto with tame nocore]
    | apply tame_ret | apply tame_raise | apply tame_lift | apply tame_print
    | apply tame_sleep | apply tame_requests_get | apply tame_save_cache
    | apply tame_input | apply tame_load_cache | apply tame_getitem
    | apply tame_bind; [| intros ?]
    | apply tame_for_each; intros ?
    | apply tame_collect; intros ?
    | match goal with
      | |- tame (if ?b then _ else _) => destruct b
      | |- tame (match ?x with _ => _ end) => destruct x
      end ].

Ltac tame_auto := repeat tame_step.

Lemma tame_make_url_request_using_cache (u : string) (cache : json) :
  tame (make_url_request_using_cache u cache).
Proof. unfold make_url_request_using_cache. tame_auto. Qed.

#[local] Hint Resolve tame_make_url_request_using_cache : tame.

Lemma tame_get_site_instance (env : Env) (u : string) :
  tame (get_site_instance env u).
Proof. unfold get_site_instance. tame_auto. Qed.

#[local] Hint Resolve tame_get_site_instance : tame.

Lemma tame_get_sites_for_state (env : Env) (u : string) :
  tame (get_sites_for_state env u).
Proof. unfold get_sites_for_state. tame_auto. Qed.

#[local] Hint Resolve tame_get_sites_for_state : tame.

Lemma tame_build_state_url_dict (env : Env) : tame (build_state_url_dict env).
Proof. unfold build_state_url_dict. tame_auto. Qed.

#[local] Hint Resolve tame_build_state_url_dict : tame.

Lemma tame_make_request_with_cache_api (env : Env) (base : string)
    (site : NationalSite) :
  tame (make_request_with_cache_api env base site).
Proof. unfold make_request_with_cache_api. tame_auto. Qed.

#[local] Hint Resolve tame_make_request_with_cache_api : tame.

Lemma tame_print_sites (sites_list : list NationalSite) :
  forall i, tame (print_sites i sites_list).
Proof.
  induction sites_list as [|s r IH]; intros i; simpl; tame_auto.
Qed.

#[local] Hint Resolve tame_print_sites : tame.

Lemma tame_print_listing (sites_list : list NationalSite) :
  tame (print_listing sites_list).
Proof. unfold print_listing. simpl listing_from. tame_auto. Qed.

#[local] Hint Resolve tame_print_listing : tame.

Lemma tame_detail_choice (env : Env) (sites_list : list NationalSite) :
  tame (detail_choice env sites_list).
Proof.
  unfold detail_choice, show_nearby, invalid_input, get_nearby_places.
  tame_auto.
Qed.

#[local] Hint Resolve tame_detail_choice : tame.

Lemma tame_detail_loop (env : Env) (sites_list : list NationalSite) (fuel : nat) :
  tame (detail_loop env fuel sites_list).
Proof. induction fuel as [|fuel IH]; simpl; tame_auto. Qed.

#[local] Hint Resolve tame_detail_loop : tame.

Lemma tame_state_choice (env : Env) (fuel : nat) : tame (state_choice env fuel).
Proof. unfold state_choice, print_header. tame_auto. Qed.

#[local] Hint Resolve tame_state_choice : tame.

Lemma tame_main_loop (env : Env) (fuel : nat) : tame (main_loop env fuel).
Proof. induction fuel as [|fuel IH]; simpl; tame_auto. Qed.

#[local] Hint Resolve tame_main_loop : tame.

Lemma tame_main (env : Env) : tame (main env).
Proof.
  split.
  - intros g w. unfold main. simpl stdin.
    apply (proj1 (tame_main_loop env _)).
  - intros w. unfold main. apply (proj2 (tame_main_loop env _)).
Qed.

Lemma ignores_keeps_global (A : Type) (op : M A) (w : World) :
  ignores_global op -> CACHE_DICT (snd (op w)) = CACHE_DICT w.
Proof.
  intros H. specialize (H (CACHE_DICT w) w).
  assert (E : set_global (CACHE_DICT w) w = w) by (destruct w; reflexivity).
  rewrite E in H. rewrite H at 1. reflexivity.
Qed.

Lemma tame_grows (A : Type) (op : M A) : tame op -> trace_grows op.
Proof. intros [_ H]. exact H. Qed.

Lemma reloads_first_bind (A : Type) (k : json -> M A) :
  (forall c, trace_grows (k c)) -> reloads_first (bind load_cache k).
Proof.
  intros Hk w. unfold bind. rewrite load_cache_spec.
  destruct (Hk (cache_of w) (log_events [EOpenRead CACHE_FILE_NAME] w))
    as [evs E].
  exists evs. rewrite E. simpl. now rewrite <- List.app_assoc.
Qed.

(** C10: each of the four operations that consult the cache opens the
    cache file before anything else, and none of them reads or writes the
    global [CACHE_DICT]: with any other value in the global it returns the
    same result and leaves the same world.  The whole program is the same,
    so the global is the empty dictionary from the start to the end. *)
Theorem C10_cache_file_is_the_only_source (env : Env) :
  (reloads_first (build_state_url_dict env)
   /\ ignores_global (build_state_url_dict env))
  /\ (forall u, reloads_first (get_sites_for_state env u)
                /\ ignores_global (get_sites_for_state env u))
  /\ (forall u, reloads_first (get_site_instance env u)
                /\ ignores_global (get_site_instance env u))
  /\ (forall base site,
         reloads_first (make_request_with_cache_api env base site)
         /\ ignores_global (make_request_with_cache_api env base site))
  /\ ignores_global (main env)
  /\ (forall fs net lines,
         CACHE_DICT (snd (main env (initial_world fs net lines))) = JDict []).
Proof.
  repeat split.
  - unfold build_state_url_dict. apply reloads_first_bind. intros c.
    apply tame_grows. tame_auto.
  - apply tame_build_state_url_dict.
  - unfold get_sites_for_state. apply reloads_first_bind. intros c.
    apply tame_grows. tame_auto.
  - apply tame_get_sites_for_state.
  - unfold get_site_instance. apply reloads_first_bind. intros c.
    apply tame_grows. tame_auto.
  - apply tame_get_site_instance.
  - unfold make_request_with_cache_api. apply reloads_first_bind. intros c.
    apply tame_grows. tame_auto.
  - apply tame_make_request_with_cache_api.
  - apply tame_main.
  - intros fs net lines.
    rewrite (ignores_keeps_global _ (main env) _ (proj1 (tame_main env))).
    reflexivity.
Qed.

(** ** The directory of states and the state prompt *)

Lemma values_in (value : string) (d : list (string * string)) :
  existsb (String.eqb value) (Dict.values d) = true ->
  exists entry, In entry d /\ snd entry = value.
Proof.
  unfold Dict.values. induction d as [|[k v] d IH]; simpl; [discriminate|].
  destruct (String.eqb_spec value v) as [->|_]; simpl.
  - intros _. exists (k, v). auto.
  - intros H. destruct (IH H) as (entry & Hin & E). eauto.
Qed.

Lemma get_in (key value : string) (d : list (string * string)) :
  Dict.get key d = Some value -> In (key, value) d.
Proof.
  induction d as [|[k v] d IH]; simpl; [discriminate|].
  destruct (String.eqb_spec k key) as [->|_].
  - intros [= ->]. auto.
  - auto.
Qed.




(** ** Invariants of the whole program *)

Import JsonFacts DictFacts.
Local Open Scope list_scope.

(** *** Only the cache file is written *)

Section OtherFiles.

Local Open Scope io_scope.

Lemma kof_ret (A : Type) (a : A) : keeps_other_files (ret a).
Proof. intros w n _. reflexivity. Qed.

Lemma kof_raise (A : Type) (e : exn) : keeps_other_files (@raise A e).
Proof. intros w n _. reflexivity. Qed.

Lemma kof_lift (A : Type) (r : result A) : keeps_other_files (lift r).
Proof. intros w n _. reflexivity. Qed.

Lemma kof_print (text : string) : keeps_other_files (print text).
Proof. intros w n _. reflexivity. Qed.

Lemma kof_sleep (seconds : Z) : keeps_other_files (sleep seconds).
Proof. intros w n _. reflexivity. Qed.

Lemma kof_requests_get (u : string) (params : list (string * string)) :
  keeps_other_files (requests_get u params).
Proof. intros w n _. reflexivity. Qed.

Lemma kof_input (prompt : string) : keeps_other_files (input prompt).
Proof. intros w n _. unfold input. destruct (stdin w); reflexivity. Qed.

Lemma kof_load_cache : keeps_other_files load_cache.
Proof. intros w n _. rewrite load_cache_spec. reflexivity. Qed.

Lemma kof_save_cache (cache : json) : keeps_other_files (save_cache cache).
Proof.
  intros w n Hn. unfold save_cache, write_file. simpl.
  destruct (String.eqb_spec n CACHE_FILE_NAME); [contradiction | reflexivity].
Qed.

Lemma kof_bind (A B : Type) (m : M A) (k : A -> M B) :
  keeps_other_files m -> (forall a, keeps_other_files (k a)) ->
  keeps_other_files (bind m k).
Proof.
  intros Hm Hk w n Hn. unfold bind. specialize (Hm w n Hn).
  destruct (m w) as [[a|e] w1]; simpl in *; [|assumption].
  now rewrite (Hk a w1 n Hn).
Qed.

Lemma kof_for_each (A : Type) (l : list A) (body : A -> M unit) :
  (forall a, keeps_other_files (body a)) -> keeps_other_files (for_each l body).
Proof.
  intros Hb. induction l as [|x l IH]; simpl.
  - apply kof_ret.
  - apply kof_bind; auto.
Qed.

Lemma kof_collect (A B : Type) (l : list A) (body : A -> M B) :
  (forall a, keeps_other_files (body a)) -> keeps_other_files (collect l body).
Proof.
  intros Hb. induction l as [|x l IH]; simpl.
  - apply kof_ret.
  - apply kof_bind; [auto|]. intros y.
    apply kof_bind; [auto|]. intros ys. apply kof_ret.
Qed.

Lemma kof_getitem (k : string) (d : list (string * json)) :
  keeps_other_files (getitem k d).
Proof. unfold getitem. destruct (Dict.get k d); [apply kof_ret | apply kof_raise]. Qed.

End OtherFiles.

Create HintDb kof.

Ltac kof_step :=
  first
    [ solve [auto with kof nocore]
    | apply kof_ret | apply kof_raise | apply kof_lift | apply kof_print
    | apply kof_sleep | apply kof_requests_get | apply kof_save_cache
    | apply kof_input | apply kof_load_cache | apply kof_getitem
    | apply kof_bind; [| intros ?]
    | apply kof_for_each; intros ?
    | apply kof_collect; intros ?
    | match goal with
      | |- keeps_other_files (if ?b then _ else _) => destruct b
      | |- keeps_other_files (match ?x with _ => _ end) => destruct x
      end ].

Ltac kof_auto := repeat kof_step.

Lemma kof_make_url_request_using_cache (u : string) (cache : json) :
  keeps_other_files (make_url_request_using_cache u cache).
Proof. unfold make_url_request_using_cache. kof_auto. Qed.

#[local] Hint Resolve kof_make_url_request_using_cache : kof.

Lemma kof_get_site_instance (env : Env) (u : string) :
  keeps_other_files (get_site_instance env u).
Proof. unfold get_site_instance. kof_auto. Qed.

#[local] Hint Resolve kof_get_site_instance : kof.

Lemma kof_get_sites_for_state (env : Env) (u : string) :
  keeps_other_files (get_sites_for_state env u).
Proof. unfold get_sites_for_state. kof_auto. Qed.

#[local] Hint Resolve kof_get_sites_for_state : kof.

Lemma kof_make_request_with_cache_api (env : Env) (base : string)
    (site : NationalSite) :
  keeps_other_files (make_request_with_cache_api env base site).
Proof. unfold make_request_with_cache_api. kof_auto. Qed.

#[local] Hint Resolve kof_make_request_with_cache_api : kof.

Lemma kof_print_sites (sites_list : list NationalSite) :
  forall i, keeps_other_files (print_sites i sites_list).
Proof. induction sites_list as [|s r IH]; intros i; simpl; kof_auto. Qed.

#[local] Hint Resolve kof_print_sites : kof.

Lemma kof_print_listing (sites_list : list NationalSite) :
  keeps_other_files (print_listing sites_list).
Proof. unfold print_listing. simpl listing_from. kof_auto. Qed.

#[local] Hint Resolve kof_print_listing : kof.

Lemma kof_detail_choice (env : Env) (sites_list : list NationalSite) :
  keeps_other_files (detail_choice env sites_list).
Proof.
  unfold detail_choice, show_nearby, invalid_input, get_nearby_places. kof_auto.
Qed.

#[local] Hint Resolve kof_detail_choice : kof.

Lemma kof_detail_loop (env : Env) (sites_list : list NationalSite) (fuel : nat) :
  keeps_other_files (detail_loop env fuel sites_list).
Proof. induction fuel as [|fuel IH]; simpl; kof_auto. Qed.

#[local] Hint Resolve kof_detail_loop : kof.

Lemma kof_state_choice (env : Env) (fuel : nat) :
  keeps_other_files (state_choice env fuel).
Proof. unfold state_choice, print_header. kof_auto. Qed.

#[local] Hint Resolve kof_state_choice : kof.

Lemma kof_main_loop (env : Env) (fuel : nat) :
  keeps_other_files (main_loop env fuel).
Proof. induction fuel as [|fuel IH]; simpl; kof_auto. Qed.

(** X1: whatever the user types and whatever the network answers, the
    program leaves every file other than proj2.json untouched; so does
    [build_state_url_dict], which the loop never calls. *)
Theorem X1_only_the_cache_file_is_written (env : Env) :
  keeps_other_files (main env) /\ keeps_other_files (build_state_url_dict env).
Proof.
  split.
  - intros w n Hn. unfold main. now apply kof_main_loop.
  - unfold build_state_url_dict. kof_auto.
Qed.

(** *** Every page request follows a pause *)



Section Polite.

Local Open Scope io_scope.


Lemma polite_raise (A : Type) (e : exn) : polite (@raise A e).
Proof. intros w. exists []. simpl. now rewrite List.app_nil_r. Qed.


Lemma polite_print (text : string) : polite (print text).
Proof. intros w. eexists. split; reflexivity. Qed.





End Polite.


(** *** Entries of the cache are never lost *)


Lemma cached_same_file (k : string) (v : json) (w w' : World) :
  files w' CACHE_FILE_NAME = files w CACHE_FILE_NAME ->
  cached k v w -> cached k v w'.
Proof.
  intros Hf (d & Hc & Hg). exists d. split; [|exact Hg].
  now rewrite (cache_of_file w w' Hf).
Qed.




Section Entries.

Local Open Scope io_scope.

Lemma ke_same_file (A : Type) (op : M A) :
  (forall w, files (snd (op w)) CACHE_FILE_NAME = files w CACHE_FILE_NAME) ->
  keeps_entries op.
Proof. intros H w k v Hc. eapply cached_same_file; [apply H | exact Hc]. Qed.

Lemma ke_ret (A : Type) (a : A) : keeps_entries (ret a).
Proof. now apply ke_same_file. Qed.



Lemma ke_print (text : string) : keeps_entries (print text).
Proof. now apply ke_same_file. Qed.


Lemma ke_bind (A B : Type) (m : M A) (k : A -> M B) :
  keeps_entries m -> (forall a, keeps_entries (k a)) -> keeps_entries (bind m k).
Proof.
  intros Hm Hk w k0 v0 Hc. unfold bind. specialize (Hm w k0 v0 Hc).
  destruct (m w) as [[a|e] w1]; simpl in *; [|assumption].
  now apply Hk.
Qed.








Lemma ke_print_sites (sites_list : list NationalSite) :
  forall i, keeps_entries (print_sites i sites_list).
Proof.
  induction sites_list as [|s r IH]; intros i; simpl.
  - apply ke_ret.
  - apply ke_bind; [apply ke_print | intros _; apply IH].
Qed.









End Entries.


(** *** What was fetched once is served from the cache *)

Lemma page_hit_of_cached (u : string) (v : json) (w w0 : World) :
  cached u v w ->
  make_url_request_using_cache u (cache_of w) w0
  = (Ok v, log_events [EPrint "Using cache"] w0).
Proof. intros (d & -> & Hg). now apply page_fetch_hit. Qed.





Lemma run_ok (A : Type) (op : M A) (w : World) (a : A) :
  fst (op w) = Ok a -> op w = (Ok a, snd (op w)).
Proof. destruct (op w) as [r w1]. simpl. now intros ->. Qed.





(** ** Failures and odd cache files *)







(** ** The list of sites of a state *)

Lemma get_sites_for_state_cached (env : Env) (u : string) (v : json)
    (w : World) :
  cached u v w ->
  get_sites_for_state env u w
  = bind (lift (rbind (BeautifulSoup env v) park_headings))
      (fun hs => collect hs (site_of_heading env))
      (log_events [EOpenRead CACHE_FILE_NAME; EPrint "Using cache"] w).
Proof.
  intros Hc. unfold get_sites_for_state, bind at 1. rewrite load_cache_spec.
  unfold bind at 1. rewrite (page_hit_of_cached u v w _ Hc).
  rewrite log_events_app. simpl app.
  unfold bind, lift, park_headings.
  destruct (BeautifulSoup env v); reflexivity.
Qed.

(** X9: a state page whose list of results is empty gives the empty list of
    sites, with no further fetch; a state page without the list of results
    makes [get_sites_for_state] raise [AttributeError]. *)
Theorem X9_state_without_sites (env : Env) (u : string) (v : json)
    (soup : node) (w : World) :
  cached u v w ->
  BeautifulSoup env v = Ok soup ->
  (Soup.find "div" (Attr "id" "parkListResults") soup = None ->
   get_sites_for_state env u w
   = (Raise AttributeError,
      log_events [EOpenRead CACHE_FILE_NAME; EPrint "Using cache"] w))
  /\ (forall p,
         Soup.find "div" (Attr "id" "parkListResults") soup = Some p ->
         Soup.find_all "h3" AnyAttrs p = [] ->
         get_sites_for_state env u w
         = (Ok [],
            log_events [EOpenRead CACHE_FILE_NAME; EPrint "Using cache"] w)).
Proof.
  intros Hc Hsoup. rewrite (get_sites_for_state_cached env u v w Hc).
  unfold bind, lift, park_headings. rewrite Hsoup. simpl rbind.
  split.
  - intros ->. reflexivity.
  - intros p -> Hh. simpl. rewrite Hh. reflexivity.
Qed.

Lemma X9_state_without_sites_witness :
  let w := Samples2.with_cache [("https://www.nps.gov/as//index.htm", JStr "<empty>")] [] in
  (Soup.find "div" (Attr "id" "parkListResults") Samples2.empty_state_page = None ->
   get_sites_for_state Samples2.env "https://www.nps.gov/as//index.htm" w
   = (Raise AttributeError,
      log_events [EOpenRead CACHE_FILE_NAME; EPrint "Using cache"] w))
  /\ (forall p,
         Soup.find "div" (Attr "id" "parkListResults") Samples2.empty_state_page
         = Some p ->
         Soup.find_all "h3" AnyAttrs p = [] ->
         get_sites_for_state Samples2.env "https://www.nps.gov/as//index.htm" w
         = (Ok [],
            log_events [EOpenRead CACHE_FILE_NAME; EPrint "Using cache"] w)).
Proof.
  intros w.
  apply (X9_state_without_sites Samples2.env
           "https://www.nps.gov/as//index.htm" (JStr "<empty>")).
  - exists [("https://www.nps.gov/as//index.htm", JStr "<empty>")].
    split; vm_compute; reflexivity.
  - reflexivity.
Defined.

Example empty_state_listing :
  fst (get_sites_for_state Samples2.env "https://www.nps.gov/as//index.htm"
         (Samples2.with_cache
            [("https://www.nps.gov/as//index.htm", JStr "<empty>")] []))
  = Ok [].
Proof. vm_compute. reflexivity. Qed.





(** ** What the records hold *)

Local Open Scope string_scope.

Lemma lstrip_by_head (p : ascii -> bool) (s : string) (c : ascii) :
  first_char (Py.lstrip_by p s) = Some c -> p c = false.
Proof.
  induction s as [|a s IH]; simpl; [discriminate|].
  destruct (p a) eqn:E; [exact IH|].
  simpl. intros [= <-]. exact E.
Qed.

Lemma rstrip_by_head (p : ascii -> bool) (s : string) (c : ascii) :
  first_char (Py.rstrip_by p s) = Some c -> first_char s = Some c.
Proof.
  destruct s as [|a s]; simpl; [discriminate|].
  destruct (Py.rstrip_by p s); [destruct (p a)|]; simpl; auto. discriminate.
Qed.

Lemma rstrip_by_last (p : ascii -> bool) (s : string) (c : ascii) :
  last_char (Py.rstrip_by p s) = Some c -> p c = false.
Proof.
  induction s as [|a s IH]; simpl; [discriminate|].
  destruct (Py.rstrip_by p s) as [|b r] eqn:E.
  - destruct (p a) eqn:Ea; simpl; [discriminate|]. intros [= <-]. exact Ea.
  - intros H. apply IH. exact H.
Qed.

Lemma strip_by_trimmed (p : ascii -> bool) (s : string) :
  trimmed p (Py.strip_by p s).
Proof.
  unfold Py.strip_by. split; intros c H.
  - eapply lstrip_by_head, rstrip_by_head, H.
  - eapply rstrip_by_last, H.
Qed.

Lemma category_text_stripped (park_soup : node) (t : string) :
  category_text park_soup = Ok t -> exists raw, t = Py.strip raw.
Proof.
  unfold category_text, park_category_lookup.
  destruct (title_container park_soup) as [p|]; simpl; [|discriminate].
  destruct (Soup.find "div" (Class "Hero-designationContainer") p) as [c|];
    simpl; [|discriminate].
  destruct (Soup.find "span" (Class "Hero-designation") c) as [d|];
    simpl; [|discriminate].
  intros [= <-]. eauto.
Qed.

Lemma zip_text_stripped (park_soup : node) (t : string) :
  zip_text park_soup = Ok t -> exists raw, t = Py.strip raw.
Proof.
  unfold zip_text, park_zip_code_lookup.
  destruct (adr_span_text (park_footer park_soup) (Class "postal-code"));
    simpl; [|discriminate].
  intros [= <-]. eauto.
Qed.

Lemma address_text_nonempty (park_soup : node) (t : string) :
  address_text park_soup = Ok t -> t <> EmptyString.
Proof.
  unfold address_text, park_address_lookup.
  destruct (adr_span_text (park_footer park_soup)
              (Attr "itemprop" "addressLocality")) as [l|]; simpl; [|discriminate].
  destruct (adr_span_text (park_footer park_soup)
              (Attr "itemprop" "addressRegion")) as [r|]; simpl; [|discriminate].
  intros [= <-]. destruct l; discriminate.
Qed.

(** X11: every record that [get_site_instance] builds from a page has a
    category and an address that are not empty, a category and a zip code
    without white space at either end, a phone number without a line break at
    either end, and no URL. *)
Theorem X11_fields_of_an_extracted_site (park_soup : node) (site : NationalSite) :
  extract_site park_soup = Ok site ->
  category site <> EmptyString
  /\ address site <> EmptyString
  /\ trimmed Py.isspace (category site)
  /\ trimmed Py.isspace (zipcode site)
  /\ trimmed is_newline (phone site)
  /\ url site = None.
Proof.
  intros H. rewrite extract_site_unfold in H.
  destruct (title_text park_soup) as [title|e]; [|discriminate H].
  simpl in H. injection H as <-. unfold NationalSite_init. simpl.
  repeat split.
  - destruct (category_text park_soup) as [t|e]; simpl; [|discriminate].
    destruct (String.eqb_spec t EmptyString); [discriminate | assumption].
  - destruct (address_text park_soup) as [t|e] eqn:E; simpl; [|discriminate].
    eapply address_text_nonempty, E.
  - destruct (category_text park_soup) as [t|e] eqn:E; simpl.
    + destruct (String.eqb_spec t EmptyString);
        [simpl; intros c0 [= <-]; reflexivity|].
      destruct (category_text_stripped _ _ E) as [raw ->].
      apply (strip_by_trimmed Py.isspace raw).
    + intros c0 [= <-]. reflexivity.
  - destruct (category_text park_soup) as [t|e] eqn:E; simpl.
    + destruct (String.eqb_spec t EmptyString);
        [simpl; intros c0 [= <-]; reflexivity|].
      destruct (category_text_stripped _ _ E) as [raw ->].
      apply (strip_by_trimmed Py.isspace raw).
    + intros c0 [= <-]. reflexivity.
  - destruct (zip_text park_soup) as [t|e] eqn:E; simpl.
    + destruct (zip_text_stripped _ _ E) as [raw ->].
      apply (strip_by_trimmed Py.isspace raw).
    + intros c0 [= <-]. reflexivity.
  - destruct (zip_text park_soup) as [t|e] eqn:E; simpl.
    + destruct (zip_text_stripped _ _ E) as [raw ->].
      apply (strip_by_trimmed Py.isspace raw).
    + intros c0 [= <-]. reflexivity.
  - apply (strip_by_trimmed is_newline).
  - apply (strip_by_trimmed is_newline).
Qed.

Lemma X11_fields_of_an_extracted_site_witness :
  let site := mkNationalSite "National Park" "Isle Royale" "Houghton, MI" "49931"
                "(906) 482-0984" None in
  category site <> EmptyString
  /\ address site <> EmptyString
  /\ trimmed Py.isspace (category site)
  /\ trimmed Py.isspace (zipcode site)
  /\ trimmed is_newline (phone site)
  /\ url site = None.
Proof.
  apply (X11_fields_of_an_extracted_site Samples.isle_royale_page).
  vm_compute. reflexivity.
Defined.

(** *** Places *)

Lemma rcollect_ok (A B : Type) (f : A -> result B) (l : list A) :
  forall ys, rcollect l f = Ok ys -> Forall2 (fun x y => f x = Ok y) l ys.
Proof.
  induction l as [|x l IH]; intros ys H; simpl in H.
  - injection H as <-. constructor.
  - destruct (f x) as [y|e] eqn:Ex; [|discriminate H]. simpl in H.
    destruct (rcollect l f) as [ys'|e]; [|discriminate H]. simpl in H.
    injection H as <-. constructor; auto.
Qed.

Lemma or_placeholder_nonempty (ph t : string) :
  ph <> EmptyString -> or_placeholder ph t <> EmptyString.
Proof.
  intros Hph. unfold or_placeholder.
  destruct (String.eqb_spec t EmptyString); assumption.
Qed.

Lemma guarded_field_nonempty (member : json) (key ph : string) :
  ph <> EmptyString ->
  try_except (rbind (field_text member key) (fun a => Ok (or_placeholder ph a))) ph
  <> EmptyString.
Proof.
  intros Hph. destruct (field_text member key); simpl; [|assumption].
  now apply or_placeholder_nonempty.
Qed.

Lemma nearby_of_member_item (member : json) (p : NearbyPlace) :
  nearby_of_member member = Ok p -> place_of_item member p.
Proof.
  unfold nearby_of_member. intros H.
  destruct (subscript member "name") as [n|e] eqn:Hn; [|discriminate H].
  simpl in H.
  match type of H with
  | rbind ?c _ = _ => destruct c as [cat|e]; [|discriminate H]
  end.
  simpl in H. injection H as <-. unfold place_of_item. simpl.
  split; [exact Hn|].
  split; apply guarded_field_nonempty; discriminate.
Qed.

(** X12: when [make_nearby_instance_list] returns, it returns one place
    for each item of [searchResults], in order; each place carries the name of
    its item as it is, and its street address and its city are never empty:
    a missing, blank or malformed field is replaced by its placeholder. *)
Theorem X12_places_follow_the_items (nearby_dict : json) (places : list NearbyPlace) :
  make_nearby_instance_list nearby_dict = Ok places ->
  exists results members,
    subscript nearby_dict "searchResults" = Ok results
    /\ iterate results = Ok members
    /\ Forall2 place_of_item members places.
Proof.
  unfold make_nearby_instance_list. intros H.
  destruct (subscript nearby_dict "searchResults") as [results|e];
    [|discriminate H].
  simpl in H.
  destruct (iterate results) as [members|e] eqn:Hit; [|discriminate H].
  simpl in H.
  exists results, members. split; [reflexivity|]. split; [exact Hit|].
  apply rcollect_ok in H. clear Hit.
  induction H as [|m p ms ps Hm _ IH]; constructor; auto.
  now apply nearby_of_member_item.
Qed.

Lemma X12_places_follow_the_items_witness :
  exists results members,
    subscript (answer_of [item_with_alternate_only; Samples.cafe]) "searchResults"
    = Ok results
    /\ iterate results = Ok members
    /\ Forall2 place_of_item members
         [mkNearbyPlace (JStr "Cafe") "Diners" "no street address" "no city";
          mkNearbyPlace (JStr "Cafe") "Restaurants" "1 Main St" "Houghton"].
Proof.
  apply (X12_places_follow_the_items
           (answer_of [item_with_alternate_only; Samples.cafe])).
  vm_compute. reflexivity.
Defined.

(** *** The table of states *)

Lemma get_key_none (d : list (string * string)) (value : string) :
  ~ In value (map snd d) -> get_key d value = Raise IndexError.
Proof.
  intros H. unfold get_key.
  assert (E : filter (fun kv => String.eqb (snd kv) value) d = []).
  { induction d as [|[k v] d IH]; simpl in *; [reflexivity|].
    destruct (String.eqb_spec v value) as [->|_].
    - exfalso. apply H. now left.
    - apply IH. intros Hin. apply H. now right. }
  rewrite E. reflexivity.
Qed.

Lemma get_key_some (d : list (string * string)) (value k : string) :
  get_key d value = Ok k -> In (k, value) d.
Proof.
  unfold get_key. induction d as [|[k0 v] d IH]; simpl; [discriminate|].
  destruct (String.eqb_spec v value) as [->|_].
  - simpl. unfold Py.index. simpl. intros [= <-]. now left.
  - intros H. right. apply IH, H.
Qed.

(** X13: the table of states can be read both ways: for every entry,
    [states[name]] is its abbreviation and [get_key(states, abbreviation)] is
    its name, so no two states share an abbreviation.  On any dictionary,
    [get_key] gives a key that holds the value, and raises [IndexError] when
    no key holds it. *)
Theorem X13_states_table_reads_both_ways :
  (forall entry, In entry states ->
     Dict.get (fst entry) states = Some (snd entry)
     /\ get_key states (snd entry) = Ok (fst entry))
  /\ (forall d value k, get_key d value = Ok k -> In (k, value) d)
  /\ (forall d value, ~ In value (map snd d) -> get_key d value = Raise IndexError).
Proof.
  split; [| split; [exact get_key_some | exact get_key_none]].
  unfold states at 1. intros entry H.
  repeat (destruct H as [H | H]; [subst entry; split; vm_compute; reflexivity |]).
  destruct H.
Qed.

Lemma X13_states_table_reads_both_ways_witness :
  Dict.get "michigan" states = Some "mi" /\ get_key states "mi" = Ok "michigan".
Proof.
  apply (proj1 X13_states_table_reads_both_ways ("michigan", "mi")).
  unfold states. repeat (try (left; reflexivity); right).
Defined.

(** ** The prompts *)

Local Open Scope string_scope.

Lemma resolve_improper (typed : string) :
  Py.lower typed <> "exit" ->
  (forall entry, In entry states -> ~ spells typed entry) ->
  resolve_state (Py.lower typed) = ImproperName.
Proof.
  intros He Hs. unfold resolve_state.
  destruct ((String.length (Py.lower typed) =? 2)%nat
            && existsb (String.eqb (Py.lower typed)) (Dict.values states))
    eqn:E.
  - apply andb_prop in E as [_ E].
    destruct (values_in _ _ E) as (entry & Hin & Hv).
    exfalso. apply (Hs entry Hin). right. congruence.
  - destruct (String.eqb_spec (Py.lower typed) "exit"); [contradiction|].
    destruct (Dict.get (Py.lower typed) states) as [abbr|] eqn:G; [|reflexivity].
    exfalso. apply (Hs (Py.lower typed, abbr)); [now apply get_in | now left].
Qed.

(** X14: at the state prompt, an input that is neither "exit" nor a
    spelling of a state of the table (in any letter case) is answered by the
    error message alone: no file is read, no request is sent, and the prompt
    comes back. *)
Theorem X14_improper_state_name (env : Env) (fuel : nat) (typed : string)
    (rest : list string) (w : World) :
  stdin w = typed :: rest ->
  Py.lower typed <> "exit" ->
  (forall entry, In entry states -> ~ spells typed entry) ->
  state_choice env fuel w
  = (Ok false,
     log_events [EPrint ("[Error] Enter proper state name " ++ newline)]
       (after_input state_prompt w)).
Proof.
  intros Hin He Hs. unfold state_choice, bind at 1, input. rewrite Hin.
  cbv zeta. rewrite (resolve_improper typed He Hs).
  reflexivity.
Qed.

Lemma not_a_state (typed : string) :
  existsb (fun entry => String.eqb (Py.lower typed) (fst entry)
                        || String.eqb (Py.lower typed) (snd entry)) states
  = false ->
  forall entry, In entry states -> ~ spells typed entry.
Proof.
  intros H entry Hin [Hs | Hs];
    (assert (E : existsb (fun entry => String.eqb (Py.lower typed) (fst entry)
                                       || String.eqb (Py.lower typed) (snd entry))
                   states = true);
     [apply existsb_exists; exists entry; split; [exact Hin|];
      rewrite Hs, String.eqb_refl; auto using orb_true_r
     | congruence]).
Qed.

Lemma X14_improper_state_name_witness :
  state_choice Samples.env 5 (Samples.fresh ["Mars"; "exit"])
  = (Ok false,
     log_events [EPrint ("[Error] Enter proper state name " ++ newline)]
       (after_input state_prompt (Samples.fresh ["Mars"; "exit"]))).
Proof.
  apply (X14_improper_state_name Samples.env 5 "Mars" ["exit"]).
  - reflexivity.
  - vm_compute. discriminate.
  - apply not_a_state. vm_compute. reflexivity.
Defined.

(** X15: "exit" at the state prompt, in any letter case, ends the program
    at once and normally: nothing is printed, read or requested, and the lines
    that follow are never read. *)
Theorem X15_exit_at_the_state_prompt (env : Env) (typed : string)
    (rest : list string) (w : World) :
  stdin w = typed :: rest ->
  Py.lower typed = "exit" ->
  main env w = (Ok tt, after_input state_prompt w).
Proof.
  intros Hin He. unfold main. rewrite Hin. simpl main_loop.
  unfold bind at 1, state_choice, bind at 1, input. rewrite Hin.
  cbv zeta. rewrite He. reflexivity.
Qed.

Lemma X15_exit_at_the_state_prompt_witness :
  main Samples.env (Samples.fresh ["EXIT"; "michigan"])
  = (Ok tt, after_input state_prompt (Samples.fresh ["EXIT"; "michigan"])).
Proof.
  apply (X15_exit_at_the_state_prompt Samples.env "EXIT" ["michigan"]);
    reflexivity.
Defined.

Lemma listing_lines_nth (sites_list : list NationalSite) :
  forall (i : Z) (k : nat) (site : NationalSite),
    nth_error sites_list k = Some site ->
    nth_error (listing_lines i sites_list) k
    = Some (listing_line (i + Z.of_nat k) site).
Proof.
  induction sites_list as [|s r IH]; intros i k site H.
  - destruct k; discriminate H.
  - destruct k as [|k]; simpl in *.
    + injection H as <-. now rewrite Z.add_0_r.
    + rewrite (IH (i + 1)%Z k site H). f_equal. f_equal. lia.
Qed.

(** X16: the listing prints one line for each site, in the order of the
    list and nothing else: the line of the site at position k (from 0) is
    "[ k+1 ]  " followed by its [info()].  The outer [while] ends after one
    pass of the inner [for], and with no site nothing is printed. *)
Theorem X16_listing_lines (sites_list : list NationalSite) (w : World) :
  print_listing sites_list w
  = (Ok tt, log_events (map EPrint (listing_lines 1 sites_list)) w)
  /\ length (listing_lines 1 sites_list) = length sites_list
  /\ forall k site,
       nth_error sites_list k = Some site ->
       nth_error (listing_lines 1 sites_list) k
       = Some ("[ " ++ Py.str_of_int (Z.of_nat k + 1) ++ " ]  " ++ site_info site).
Proof.
  split; [apply listing_numbered_from_one | split].
  - generalize 1%Z. induction sites_list as [|s r IH]; intros i; simpl;
      [reflexivity | now rewrite IH].
  - intros k site H. rewrite (listing_lines_nth sites_list 1 k site H).
    unfold listing_line. now rewrite Z.add_comm.
Qed.

Lemma X16_listing_lines_witness :
  nth_error (listing_lines 1 [Samples.isle_royale; Samples.keweenaw]) 1
  = Some ("[ 2 ]  " ++ site_info Samples.keweenaw).
Proof.
  apply (proj2 (proj2 (X16_listing_lines [Samples.isle_royale; Samples.keweenaw]
                         (Samples.fresh []))) 1%nat Samples.keweenaw).
  reflexivity.
Defined.

(** X17: at the detail prompt, an input that is not numeric, and a number
    above the length of the list, are answered by the error message and the
    line of dashes alone: no file is read, no request is sent, and the prompt
    comes back. *)
Theorem X17_detail_prompt_rejects (env : Env) (sites_list : list NationalSite)
    (typed : string) (rest : list string) (w : World) :
  stdin w = typed :: rest ->
  Py.lower typed <> "back" ->
  Py.lower typed <> "exit" ->
  Py.isnumeric (Py.lower typed) = false
  \/ (exists n, Py.int (Py.lower typed) = Ok n /\ (Py.len sites_list < n)%Z) ->
  detail_choice env sites_list w
  = (Ok Stay,
     log_events
       [EPrint ("[Error] Invalid input " ++ newline); EPrint dashes]
       (after_input detail_prompt w))
  /\ detail_loop env 1 sites_list w
     = detail_loop env 0 sites_list
         (log_events
            [EPrint ("[Error] Invalid input " ++ newline); EPrint dashes]
            (after_input detail_prompt w)).
Proof.
  intros Hin Hb He Hcase.
  pose proof (detail_choice_rejects env sites_list typed rest w Hin Hb He Hcase)
    as H.
  split; [exact H|].
  simpl detail_loop. unfold bind at 1. rewrite H. reflexivity.
Qed.

Lemma X17_detail_prompt_rejects_witness :
  let w := Samples.fresh ["3"] in
  let sites_list := [Samples.isle_royale; Samples.keweenaw] in
  detail_choice Samples.env sites_list w
  = (Ok Stay,
     log_events
       [EPrint ("[Error] Invalid input " ++ newline); EPrint dashes]
       (after_input detail_prompt w))
  /\ detail_loop Samples.env 1 sites_list w
     = detail_loop Samples.env 0 sites_list
         (log_events
            [EPrint ("[Error] Invalid input " ++ newline); EPrint dashes]
            (after_input detail_prompt w)).
Proof.
  apply (X17_detail_prompt_rejects Samples.env
           [Samples.isle_royale; Samples.keweenaw] "3" []).
  - reflexivity.
  - vm_compute. discriminate.
  - vm_compute. discriminate.
  - right. exists 3%Z. split; [reflexivity | vm_compute; reflexivity].
Defined.

Lemma index_nth (A : Type) (l : list A) (k : Z) (a : A) :
  (1 <= k <= Py.len l)%Z ->
  nth_error l (Z.to_nat (k - 1)) = Some a ->
  Py.index l (k - 1) = Ok a.
Proof.
  intros Hk Hn. unfold Py.index.
  assert (E1 : (k - 1 <? 0)%Z = false) by (apply Z.ltb_ge; lia).
  rewrite E1.
  assert (E2 : ((0 <=? k - 1)%Z && (k - 1 <? Py.len l)%Z) = true).
  { apply andb_true_intro. split; [apply Z.leb_le | apply Z.ltb_lt]; lia. }
  rewrite E2, Hn. reflexivity.
Qed.

Lemma print_places (places : list NearbyPlace) :
  forall (lines : list string) (w : World),
    rcollect places place_info = Ok lines ->
    for_each places
      (fun nearby_place =>
         bind (lift (place_info nearby_place))
           (fun line => print ("- " ++ line))) w
    = (Ok tt, log_events (map (fun line => EPrint ("- " ++ line)) lines) w).
Proof.
  induction places as [|p ps IH]; intros lines w H; simpl in H.
  - injection H as <-. simpl. unfold ret. now rewrite log_events_nil.
  - destruct (place_info p) as [line|e] eqn:Ep; [|discriminate H].
    simpl in H.
    destruct (rcollect ps place_info) as [ls|e] eqn:Els; [|discriminate H].
    simpl in H. injection H as <-.
    simpl for_each. unfold bind at 1. unfold bind at 1, lift. rewrite Ep.
    unfold print. rewrite (IH ls _ eq_refl).
    rewrite log_event_events, log_events_app. reflexivity.
Qed.

Lemma bind_ok (A B : Type) (m : M A) (k : A -> M B) (w : World) (a : A)
    (w1 : World) :
  m w = (Ok a, w1) -> bind m k w = k a w1.
Proof. intros H. unfold bind. now rewrite H. Qed.

Lemma bind_print (B : Type) (text : string) (k : unit -> M B) (w : World) :
  bind (print text) k w = k tt (log_event (EPrint text) w).
Proof. reflexivity. Qed.

Lemma input_line (prompt typed : string) (rest : list string) (w : World) :
  stdin w = typed :: rest -> input prompt w = (Ok typed, after_input prompt w).
Proof. intros H. unfold input. now rewrite H. Qed.

Lemma show_nearby_ok (env : Env) (sites_list : list NationalSite) (k : Z)
    (chosen : NationalSite) (u : string) (park : NationalSite) (nearby : json)
    (places : list NearbyPlace) (lines : list string) (w w1 w2 : World) :
  (1 <= k <= Py.len sites_list)%Z ->
  nth_error sites_list (Z.to_nat (k - 1)) = Some chosen ->
  url chosen = Some u ->
  get_site_instance env u w = (Ok park, w1) ->
  get_nearby_places env park w1 = (Ok nearby, w2) ->
  make_nearby_instance_list nearby = Ok places ->
  rcollect places place_info = Ok lines ->
  show_nearby env sites_list k w
  = (Ok tt, log_events (nearby_report park lines) w2).
Proof.
  intros Hk Hnth Hurl Hsite Hnear Hplaces Hlines. unfold show_nearby.
  rewrite (bind_ok _ _ _ _ w chosen w)
    by (unfold lift; now rewrite (index_nth _ sites_list k chosen Hk Hnth)).
  rewrite Hurl. rewrite (bind_ok _ _ _ _ w park w1 Hsite).
  rewrite (bind_ok _ _ _ _ w1 nearby w2 Hnear).
  rewrite (bind_ok _ _ _ _ w2 places w2) by (unfold lift; now rewrite Hplaces).
  rewrite !bind_print.
  rewrite (print_places places lines _ Hlines).
  unfold nearby_report.
  rewrite !log_event_events, !log_events_app. reflexivity.
Qed.

(** X18: at the detail prompt, a number k within 1..n shows the places
    near the k-th site of the list: the page of that site is fetched through
    the cache, the places API is queried for the record built from that page,
    and the program prints a line of dashes, "Places near" with the trimmed
    title of the page, a line of dashes, and one line "- info" for each place,
    in order; then the prompt comes back. *)
Theorem X18_choice_in_range (env : Env) (sites_list : list NationalSite)
    (typed : string) (rest : list string) (k : Z) (chosen : NationalSite)
    (u : string) (park : NationalSite) (nearby : json)
    (places : list NearbyPlace) (lines : list string) (w w1 w2 : World) :
  stdin w = typed :: rest ->
  Py.isnumeric (Py.lower typed) = true ->
  Py.int (Py.lower typed) = Ok k ->
  (1 <= k <= Py.len sites_list)%Z ->
  nth_error sites_list (Z.to_nat (k - 1)) = Some chosen ->
  url chosen = Some u ->
  get_site_instance env u (after_input detail_prompt w) = (Ok park, w1) ->
  get_nearby_places env park w1 = (Ok nearby, w2) ->
  make_nearby_instance_list nearby = Ok places ->
  rcollect places place_info = Ok lines ->
  detail_choice env sites_list w
  = (Ok Stay, log_events (nearby_report park lines) w2).
Proof.
  intros Hin Hnum Hint Hk Hnth Hurl Hsite Hnear Hplaces Hlines.
  unfold detail_choice.
  rewrite (bind_ok _ _ _ _ w typed _ (input_line _ _ _ _ Hin)). cbv zeta.
  assert (Hb : (Py.lower typed =? "back") = false).
  { destruct (String.eqb_spec (Py.lower typed) "back") as [E|]; [|reflexivity].
    rewrite E in Hnum. discriminate Hnum. }
  assert (He : (Py.lower typed =? "exit") = false).
  { destruct (String.eqb_spec (Py.lower typed) "exit") as [E|]; [|reflexivity].
    rewrite E in Hnum. discriminate Hnum. }
  rewrite Hb, He, Hnum.
  rewrite (bind_ok _ _ _ _ _ k _) by (unfold lift; now rewrite Hint).
  assert (Hle : (k <=? Py.len sites_list)%Z = true) by (apply Z.leb_le; lia).
  rewrite Hle. change (true && true) with true. cbv iota.
  rewrite (bind_ok _ _ _ _ _ tt _
             (show_nearby_ok env sites_list k chosen u park nearby places lines
                _ w1 w2 Hk Hnth Hurl Hsite Hnear Hplaces Hlines)).
  reflexivity.
Qed.

Lemma X18_choice_in_range_witness :
  let w := Samples.fresh ["2"] in
  let w1 := snd (get_site_instance Samples.env
                   "https://www.nps.gov/kewe/index.htm"
                   (after_input detail_prompt w)) in
  let park := mkNationalSite "National Historical Park" "Keweenaw" "Calumet, MI"
                "49913" "(906) 337-3168" None in
  let w2 := snd (get_nearby_places Samples.env park w1) in
  detail_choice Samples.env [Samples.isle_royale; Samples.keweenaw] w
  = (Ok Stay,
     log_events
       (nearby_report park ["Cafe (Restaurants): 1 Main St, Houghton"]) w2).
Proof.
  intros w w1 park w2.
  apply (X18_choice_in_range Samples.env
           [Samples.isle_royale; Samples.keweenaw] "2" [] 2 Samples.keweenaw
           "https://www.nps.gov/kewe/index.htm" park Samples.places_answer
           [mkNearbyPlace (JStr "Cafe") "Restaurants" "1 Main St" "Houghton"]
           ["Cafe (Restaurants): 1 Main St, Houghton"] w w1 w2).
  - reflexivity.
  - reflexivity.
  - reflexivity.
  - vm_compute. split; discriminate.
  - reflexivity.
  - reflexivity.
  - unfold w1. apply run_ok. vm_compute. reflexivity.
  - unfold w2. apply run_ok. vm_compute. reflexivity.
  - vm_compute. reflexivity.
  - reflexivity.
Defined.

(** ** The directory of states *)

Local Open Scope string_scope.










(** ** A listed site and the record of its page *)

Lemma lstrip_by_trimmed (p : ascii -> bool) (s : string) :
  (forall c, first_char s = Some c -> p c = false) -> Py.lstrip_by p s = s.
Proof.
  destruct s as [|a s]; simpl; [reflexivity|].
  intros H. now rewrite (H a eq_refl).
Qed.

Lemma rstrip_by_trimmed (p : ascii -> bool) (s : string) :
  (forall c, last_char s = Some c -> p c = false) -> Py.rstrip_by p s = s.
Proof.
  induction s as [|a s IH]; simpl; [reflexivity|].
  intros H. destruct s as [|b s].
  - simpl. now rewrite (H a eq_refl).
  - rewrite IH by exact H. reflexivity.
Qed.

Lemma strip_by_idem (p : ascii -> bool) (s : string) :
  Py.strip_by p (Py.strip_by p s) = Py.strip_by p s.
Proof.
  destruct (strip_by_trimmed p s) as [Hf Hl].
  unfold Py.strip_by at 1.
  now rewrite (lstrip_by_trimmed p _ Hf), (rstrip_by_trimmed p _ Hl).
Qed.

(** X20: a site of the list of a state holds the category, the address,
    the zip code and the phone number of the record that [get_site_instance]
    builds from the page of its URL: building the record a second time, with
    its second removal of line breaks around the phone number, changes none
    of them. *)
Theorem X20_listed_site_has_the_fields_of_its_page (env : Env) (h : node)
    (w : World) (s : NationalSite) (w1 : World) :
  site_of_heading env h w = (Ok s, w1) ->
  exists u p,
    url s = Some u
    /\ get_site_instance env u w = (Ok p, w1)
    /\ category s = category p
    /\ address s = address p
    /\ zipcode s = zipcode p
    /\ phone s = phone p.
Proof.
  intros H. unfold site_of_heading, bind at 1, lift in H.
  destruct (park_link h) as [link|e]; [|discriminate H].
  unfold bind in H.
  destruct (get_site_instance env (snd link) w) as [[p|e] w0] eqn:Hp;
    [|discriminate H].
  unfold ret in H. injection H as <- <-.
  exists (snd link), p.
  split; [reflexivity|]. split; [exact Hp|].
  split; [reflexivity|]. split; [reflexivity|]. split; [reflexivity|].
  unfold NationalSite_init. simpl phone at 1.
  unfold get_site_instance, bind at 1 in Hp. rewrite load_cache_spec in Hp.
  unfold bind, lift in Hp.
  destruct (make_url_request_using_cache _ _ _) as [[v|e] w2]; [|discriminate Hp].
  destruct (BeautifulSoup env v) as [soup|e]; [|discriminate Hp].
  rewrite extract_site_unfold in Hp.
  destruct (title_text soup) as [t|e]; [|discriminate Hp].
  simpl in Hp. injection Hp as <- _. unfold NationalSite_init. simpl phone.
  apply strip_by_idem.
Qed.

Lemma X20_listed_site_has_the_fields_of_its_page_witness :
  exists u p,
    url Samples.isle_royale = Some u
    /\ get_site_instance Samples.env u (Samples.fresh [])
       = (Ok p,
          snd (site_of_heading Samples.env
                 (Tag "h3" [] [Tag "a" [("href", "/isro/")] [Text "Isle Royale"]])
                 (Samples.fresh [])))
    /\ category Samples.isle_royale = category p
    /\ address Samples.isle_royale = address p
    /\ zipcode Samples.isle_royale = zipcode p
    /\ phone Samples.isle_royale = phone p.
Proof.
  apply (X20_listed_site_has_the_fields_of_its_page Samples.env
           (Tag "h3" [] [Tag "a" [("href", "/isro/")] [Text "Isle Royale"]])
           (Samples.fresh [])).
  apply run_ok. vm_compute. reflexivity.
Defined.

(** ** A cache file that cannot be read *)

Lemma lift_world (A : Type) (r : result A) (w : World) : snd (lift r w) = w.
Proof. reflexivity. Qed.


